(** * send_images.py: scrape a news page and relay its images to a chat

    A shallow embedding of [src/send_images.py] and the properties of its
    specification.  The script is a linear pipeline

      fetch page -> extract (image_url, caption) items -> download -> send

    written against three libraries (requests, BeautifulSoup, urllib) and
    the process environment.  The embedding keeps the script's own code
    (string construction, control flow, exception handling, counters) as
    executable definitions and takes the libraries' behaviour as an
    interface ([Libs]) the definitions are parametric in.

    Strings are [string]: sequences of 8-bit characters, read as the code
    points below 256 of a Python [str]. *)

From Stdlib Require Import ZArith Ascii String DecimalString Lia.
From stdpp Require Import base option list strings gmap.

Local Open Scope Z_scope.

(** ** Python string methods used by the script *)

Module Str.

Definition code (c : ascii) : N := N_of_ascii c.

(** [str.isspace] on one character (code points below 256). *)
Definition isspace (c : ascii) : bool :=
  let n := code c in
  (((9 <=? n) && (n <=? 13)) || ((28 <=? n) && (n <=? 32))
   || (n =? 133) || (n =? 160))%N.

(** [str.lower] on one character (code points below 256). *)
Definition lower_char (c : ascii) : ascii :=
  let n := code c in
  if (((65 <=? n) && (n <=? 90))
      || ((192 <=? n) && (n <=? 222) && negb (n =? 215)))%N
  then ascii_of_N (n + 32) else c.

Fixpoint lower (s : string) : string :=
  match s with
  | EmptyString => EmptyString
  | String c s' => String (lower_char c) (lower s')
  end.

(** [s.startswith(p)] *)
Definition startswith (s p : string) : bool := String.prefix p s.

(** [s.endswith(suf)]: [suf] is [s] or a suffix of the tail of [s]. *)
Fixpoint endswith (s suf : string) : bool :=
  String.eqb s suf ||
  match s with
  | EmptyString => false
  | String _ s' => endswith s' suf
  end.

(** [s.endswith((suf1, ..., sufn))] *)
Definition endswith_any (s : string) (sufs : list string) : bool :=
  existsb (endswith s) sufs.

Fixpoint lstrip (s : string) : string :=
  match s with
  | EmptyString => EmptyString
  | String c s' => if isspace c then lstrip s' else s
  end.

(** [rstrip] keeps a character when it is not a space or when something
    is kept after it. *)
Fixpoint rstrip (s : string) : string :=
  match s with
  | EmptyString => EmptyString
  | String c s' =>
      match rstrip s' with
      | EmptyString => if isspace c then EmptyString else String c EmptyString
      | r => String c r
      end
  end.

(** [s.strip()] *)
Definition strip (s : string) : string := rstrip (lstrip s).

(** [s[:-1]] *)
Fixpoint drop_last (s : string) : string :=
  match s with
  | EmptyString => EmptyString
  | String c EmptyString => EmptyString
  | String c s' => String c (drop_last s')
  end.

(** [s.replace(old, new)] for a non-empty [old]: occurrences are replaced
    from the left and do not overlap.  [skip] counts the characters of a
    matched occurrence still to be dropped. *)
Fixpoint replace_go (old new : string) (skip : nat) (s : string) : string :=
  match s with
  | EmptyString => EmptyString
  | String c s' =>
      match skip with
      | S k => replace_go old new k s'
      | O =>
          if String.prefix old s
          then new +:+ replace_go old new (String.length old - 1) s'
          else String c (replace_go old new 0 s')
      end
  end.

(** With an empty [old], Python puts [new] before every character and at
    the end. *)
Fixpoint intersperse (new s : string) : string :=
  match s with
  | EmptyString => new
  | String c s' => new +:+ String c (intersperse new s')
  end.

Definition replace (s old new : string) : string :=
  match old with
  | EmptyString => intersperse new s
  | _ => replace_go old new 0 s
  end.

(** [s.split(sep)] for a one-character separator; never the empty list. *)
Fixpoint split (s : string) (sep : ascii) : list string :=
  match s with
  | EmptyString => [EmptyString]
  | String c s' =>
      if Ascii.eqb c sep then EmptyString :: split s' sep
      else match split s' sep with
           | h :: t => String c h :: t
           | [] => [String c EmptyString]
           end
  end.

(** [str(n)] for an integer. *)
Definition of_Z (n : Z) : string := NilZero.string_of_int (Z.to_int n).

End Str.

(** ** Documents as BeautifulSoup presents them

    A parsed page is a tree of tags and strings.  A tag's [attrs] holds its
    single-valued attributes ([href], [alt], ...); [klass] is the value of
    the multi-valued [class] attribute, which BeautifulSoup keeps as a list
    (empty when the tag has none). *)

#[local] Set Warnings "-register-all".

Inductive node :=
| Tag (name : string) (attrs : gmap string string) (klass : list string)
      (contents : list node)
| NavigableString (text : string).

Module Soup.

(** Everything below a node, in document order. *)
Fixpoint descendants (n : node) : list node :=
  match n with
  | Tag _ _ _ cs => flat_map (fun c => c :: descendants c) cs
  | NavigableString _ => []
  end.

Definition has_name (nm : string) (n : node) : bool :=
  match n with
  | Tag nm' _ _ _ => String.eqb nm' nm
  | NavigableString _ => false
  end.

Fixpoint join (sep : string) (l : list string) : string :=
  match l with
  | [] => ""
  | [x] => x
  | x :: l' => x +:+ sep +:+ join sep l'
  end.

(** The [class_=c] filter: one of the classes is [c], or the whole
    attribute value is. *)
Definition has_class (c : string) (n : node) : bool :=
  match n with
  | Tag _ _ k _ =>
      match k with
      | [] => false
      | _ => existsb (fun x => String.eqb x c) k || String.eqb (join " " k) c
      end
  | NavigableString _ => false
  end.

(** [n.find_all(nm)] and [n.find_all(nm, class_=c)] *)
Definition find_all (n : node) (nm : string) : list node :=
  List.filter (has_name nm) (descendants n).

Definition find_all_class (n : node) (nm c : string) : list node :=
  List.filter (fun x => has_name nm x && has_class c x) (descendants n).

(** [n.find(nm)]: the first match, or [None]. *)
Definition find (n : node) (nm : string) : option node :=
  head (find_all n nm).

(** [tag.get(key)]: the attribute or [None]. *)
Definition get (n : node) (key : string) : option string :=
  match n with
  | Tag _ a _ _ => a !! key
  | NavigableString _ => None
  end.

End Soup.

(** ** Exceptions, outcomes and observable events *)

(** Every exception the script can meet derives from [Exception]; one is
    kept as its class and the text [str(e)] prints. *)
Record exn := Exn { exn_class : string; exn_str : string }.

Definition IndexError : exn := Exn "IndexError" "list index out of range".
(** [str(KeyError(k))] is the [repr] of [k]; the keys here are plain words. *)
Definition KeyError (k : string) : exn := Exn "KeyError" ("'" +:+ k +:+ "'").
Definition AttributeError (ty attr : string) : exn :=
  Exn "AttributeError" ("'" +:+ ty +:+ "' object has no attribute '" +:+ attr +:+ "'").

(** How a computation ends: with a value, with an exception in flight, or
    with [sys.exit(code)] ([SystemExit] is not an [Exception], so
    [except Exception] lets it through). *)
Inductive outcome (A : Type) :=
| Returned (a : A)
| Raised (e : exn)
| Exited (code : Z).
Arguments Returned {A} a.
Arguments Raised {A} e.
Arguments Exited {A} code.

(** Python values of the credentials: [os.getenv] gives a string or [None],
    and [main] may replace it by an integer. *)
Inductive pyval :=
| PyNone
| PyStr (s : string)
| PyInt (n : Z).

Definition truthy (v : pyval) : bool :=
  match v with
  | PyNone => false
  | PyStr s => negb (String.eqb s "")
  | PyInt n => negb (n =? 0)
  end.

(** [a or b] *)
Definition py_or (a b : pyval) : pyval := if truthy a then a else b.

(** [str(v)], as an f-string formats it. *)
Definition py_str (v : pyval) : string :=
  match v with
  | PyNone => "None"
  | PyStr s => s
  | PyInt n => Str.of_Z n
  end.

(** [s or d] on strings. *)
Definition str_or (s d : string) : string :=
  if String.eqb s "" then d else s.

Definition item : Type := string * string.

Record get_request := GetRequest {
  get_url : string;
  get_timeout : Z;
  get_headers : gmap string string
}.

Record post_request := PostRequest {
  post_url : string;
  post_chat_id : pyval;
  post_caption : string;
  post_filename : string;
  post_photo : string;
  post_timeout : Z
}.

(** The body of a reply as [resp.json()] gives it: an object, whose members
    are kept as the text [str] prints for them, or a value of another type. *)
Inductive json :=
| JObject (members : gmap string string)
| JOther (type_name : string).

(** A reply of a server.  [http_error] is what [raise_for_status] raises:
    [None] for a status that is no error. *)
Record response := Response {
  resp_text : string;
  resp_content : string;
  http_error : option exn;
  resp_json : exn + json
}.

(** [time.sleep] is called with the integer 3 or with the parsed delay. *)
Inductive seconds (F : Type) :=
| SecInt (n : Z)
| SecFloat (d : F).
Arguments SecInt {F} n.
Arguments SecFloat {F} d.

(** ** The libraries and the world outside the process

    [world] is everything the script talks to (the news site, the image
    host, the bot API, the clock); a request may change it.  The library
    functions whose code is not the script's are fields here:
    [requests] ([http_get], [http_post]; they raise on connection errors
    and timeouts), [BeautifulSoup(text, "html.parser")], [urljoin], the
    [path] of [urlparse], [unquote], [float] and [time.sleep]. *)
Class Libs := {
  world : Type;
  pyfloat : Type;
  http_get : get_request -> world -> world * (exn + response);
  http_post : post_request -> world -> world * (exn + response);
  html_parser : string -> node;
  urljoin : string -> string -> string;
  urlparse_path : string -> exn + string;
  unquote : string -> string;
  float_of_str : string -> exn + pyfloat;
  sleep : seconds pyfloat -> world -> world
}.

(** What a run does that can be seen from outside, in order; a request is
    recorded with the reply it got. *)
Inductive event `{Libs} :=
| Print (line : string)
| PrintTag (li : node)
| PrintItems (items : list item)
| HttpGet (req : get_request) (reply : exn + response)
| HttpPost (req : post_request) (reply : exn + response)
| Sleep (d : seconds pyfloat).

Section Script.
Context `{L : Libs}.

(** *** A monad for the script's effects: world, output, exceptions *)

Definition M (A : Type) : Type := world -> world * list event * outcome A.

Definition ret {A} (a : A) : M A := fun w => (w, [], Returned a).

Definition bind {A B} (m : M A) (f : A -> M B) : M B :=
  fun w =>
    match m w with
    | (w1, t1, Returned a) =>
        match f a w1 with
        | (w2, t2, r) => (w2, t1 ++ t2, r)
        end
    | (w1, t1, Raised e) => (w1, t1, Raised e)
    | (w1, t1, Exited c) => (w1, t1, Exited c)
    end.

Definition emit (e : event) : M unit := fun w => (w, [e], Returned tt).

Definition raise {A} (e : exn) : M A := fun w => (w, [], Raised e).

(** [sys.exit(code)] *)
Definition sys_exit {A} (code : Z) : M A := fun w => (w, [], Exited code).

(** A library call that computes without touching the world. *)
Definition lift {A} (r : exn + A) : M A :=
  match r with
  | inl e => raise e
  | inr a => ret a
  end.

(** [try: m  except Exception as e: h e] *)
Definition try_except {A} (m : M A) (h : exn -> M A) : M A :=
  fun w =>
    match m w with
    | (w1, t1, Raised e) =>
        match h e w1 with
        | (w2, t2, r) => (w2, t1 ++ t2, r)
        end
    | r => r
    end.

(** [for x in l: s = body x s]; a [continue] is a body that returns. *)
Fixpoint for_each {A S} (l : list A) (body : A -> S -> M S) (s : S) : M S :=
  match l with
  | [] => ret s
  | x :: l' => bind (body x s) (for_each l' body)
  end.

End Script.

Notation "'do' x <- m ; k" := (bind m (fun x => k))
  (at level 10, x pattern, m at level 100, k at level 200,
   format "'[v' 'do'  x  <-  m ; '/' k ']'").
Notation "'run' m ; k" := (bind m (fun _ => k))
  (at level 10, m at level 100, k at level 200,
   format "'[v' 'run'  m ; '/' k ']'").

Section Program.
Context `{L : Libs}.

Definition URL : string := "https://thetv.jp/news/detail/1310405/".

(** [requests.get(...)] and [session.get(...)]: the call is observable,
    the reply is the world's. *)
Definition requests_get (req : get_request) : M response :=
  fun w =>
    match http_get req w with
    | (w', inl e) => (w', [HttpGet req (inl e)], Raised e)
    | (w', inr r) => (w', [HttpGet req (inr r)], Returned r)
    end.

Definition session_post (req : post_request) : M response :=
  fun w =>
    match http_post req w with
    | (w', inl e) => (w', [HttpPost req (inl e)], Raised e)
    | (w', inr r) => (w', [HttpPost req (inr r)], Returned r)
    end.

(** [resp.raise_for_status()] *)
Definition raise_for_status (r : response) : M unit :=
  match http_error r with
  | Some e => raise e
  | None => ret tt
  end.

(** [time.sleep(d)] inside [try: ... except Exception: pass]: whatever the
    call does, the script goes on. *)
Definition time_sleep (d : seconds pyfloat) : M unit :=
  fun w => (sleep d w, [Sleep d], Returned tt).

(** [l[0]] *)
Definition index0 {A} (l : list A) : M A :=
  match l with
  | [] => raise IndexError
  | x :: _ => ret x
  end.

(** [tag[key]] *)
Definition getitem (n : node) (key : string) : M string :=
  match Soup.get n key with
  | Some v => ret v
  | None => raise (KeyError key)
  end.

(** *** [get_all_items] *)

(** Lines 41-45: the image address built from an entry's [href]. *)
Definition item_src (href : string) : string :=
  "https://thetv.jp/"
  +:+ Str.replace (Str.drop_last (Str.strip href)) "/news/detail/" "/i/nw/"
  +:+ ".jpg".

(** Lines 48-51, with the branch that was taken. *)
Inductive branch := ProtocolRelative | RootRelative | Unchanged.

Definition normalize_branch (src : string) : branch :=
  if Str.startswith src "//" then ProtocolRelative
  else if Str.startswith src "/" then RootRelative
  else Unchanged.

Definition normalize (url src : string) : string :=
  match normalize_branch src with
  | ProtocolRelative => "https:" +:+ src
  | RootRelative => urljoin url src
  | Unchanged => src
  end.

(** The body of the loop over the [li] entries (lines 37-56). *)
Definition li_step (url : string) (li : node) (items : list item)
  : M (list item) :=
  run emit (PrintTag li);
  match Soup.find li "a" with
  | None => ret items
  | Some a =>
      match Soup.get a "href" with
      | None => ret items
      | Some href =>
          if String.eqb href "" then ret items else
          let src := item_src href in
          run emit (Print src);
          let src := normalize url src in
          let img := Soup.find li "img" in
          do caption <- match img with
                        | Some img => getitem img "alt"
                        | None => ret ""
                        end;
          let items := items ++ [(src, caption)] in
          run emit (PrintItems items);
          ret items
      end
  end.

Definition user_agent : gmap string string :=
  {[ "User-Agent" := "Mozilla/5.0 (compatible; send_first_img/1.0)" ]}.

Definition get_all_items (url : string) (i : Z) : M (list item) :=
  do resp <- requests_get (GetRequest url 15 user_agent);
  run raise_for_status resp;
  let soup := html_parser (resp_text resp) in
  do container <- index0 (Soup.find_all_class soup "div" "newsimage");
  for_each (Soup.find_all container "li") (li_step url) [].

(** *** [download_image_bytes] *)

(** [l[-1]] *)
Definition index_last {A} (l : list A) : exn + A :=
  match last l with
  | Some x => inr x
  | None => inl IndexError
  end.

(** Lines 75-76, the body of the [try]:
    [unquote(urlparse(image_url).path.split("/")[-1]) or "file"]. *)
Definition name_from_url (image_url : string) : exn + string :=
  match urlparse_path image_url with
  | inl e => inl e
  | inr path =>
      match index_last (Str.split path "/") with
      | inl e => inl e
      | inr seg => inr (str_or (unquote seg) "file")
      end
  end.

Definition image_extensions : list string :=
  [".jpg"; ".jpeg"; ".png"; ".gif"; ".webp"].

(** Lines 81-83. *)
Definition ensure_extension (name : string) : string :=
  let lower := Str.lower name in
  if negb (Str.endswith_any lower image_extensions)
  then name +:+ ".jpg" else name.

(** Lines 72-83: the name the image is sent under. *)
Definition filename_of (image_url : string) : string :=
  let name := match name_from_url image_url with
              | inr name => name
              | inl _ => "file"
              end in
  ensure_extension name.

Definition download_image_bytes (image_url : string) : M (string * string) :=
  do resp <- requests_get (GetRequest image_url 20 ∅);
  run raise_for_status resp;
  let content := resp_content resp in
  ret (content, filename_of image_url).

(** *** [send_photo_telegram] *)

Definition send_photo_telegram (bot_token chat_id : pyval)
    (file_bytes filename caption : string) : M json :=
  let api := "https://api.telegram.org/bot" +:+ py_str bot_token +:+ "/sendPhoto" in
  do resp <- session_post (PostRequest api chat_id caption filename file_bytes 60);
  run raise_for_status resp;
  lift (resp_json resp).

(** [res.get("ok")], as the f-string prints it. *)
Definition json_get_str (res : json) (key : string) : M string :=
  match res with
  | JObject members => ret (default "None" (members !! key))
  | JOther ty => raise (AttributeError ty "get")
  end.

(** *** [main] *)

(** [os.getenv(k)] and [os.getenv(k, d)] *)
Definition getenv (env : gmap string string) (k : string) : pyval :=
  match env !! k with
  | Some v => PyStr v
  | None => PyNone
  end.

Definition getenv_default (env : gmap string string) (k d : string) : string :=
  default d (env !! k).

(** [enumerate(l, start)] *)
Fixpoint enumerate {A} (l : list A) (start : Z) : list (Z * A) :=
  match l with
  | [] => []
  | x :: l' => (start, x) :: enumerate l' (start + 1)
  end.

Definition len {A} (l : list A) : Z := Z.of_nat (length l).

(** The body of the loop over the items (lines 130-161); the state of the
    loop is the counter [sent]. *)
Definition process_item (token chat_id : pyval) (delay : pyfloat)
    (total : Z) (entry : Z * item) (sent : Z) : M Z :=
  let '(idx, (image_url, caption)) := entry in
  run emit (Print ("[" +:+ Str.of_Z idx +:+ "/" +:+ Str.of_Z total
                   +:+ "] Processing: " +:+ image_url));
  do downloaded <- try_except
    (do downloaded <- download_image_bytes image_url;
     ret (Some downloaded))
    (fun e =>
       run emit (Print ("  Error downloading image: " +:+ exn_str e));
       ret None);
  match downloaded with
  | None => ret sent
  | Some (file_bytes, filename) =>
      do sent <- try_except
        (do res <- send_photo_telegram token chat_id file_bytes filename caption;
         do ok <- json_get_str res "ok";
         run emit (Print ("  Sent as photo '" +:+ filename +:+ "', ok=" +:+ ok));
         let sent := sent + 1 in
         run time_sleep (SecInt 3);
         ret sent)
        (fun e =>
           run emit (Print ("  Error sending to Telegram: " +:+ exn_str e));
           ret sent);
      run time_sleep (SecFloat delay);
      ret sent
  end.

Definition main_body (env : gmap string string) (token chat_id : pyval)
    (i : Z) (_ : unit) : M unit :=
  do items <- try_except (get_all_items URL i)
                (fun e =>
                   run emit (Print ("Error fetching/parsing page: " +:+ exn_str e));
                   sys_exit 1);
  match items with
  | [] => run emit (Print "No items found on the page."); ret tt
  | _ =>
      do delay <- lift (float_of_str (getenv_default env "TELEGRAM_DELAY_SECONDS" "1"));
      let sent := 0 in
      do sent <- for_each (enumerate items 1)
                   (process_item token chat_id delay (len items)) sent;
      emit (Print ("Done. Sent " +:+ Str.of_Z sent +:+ "/"
                   +:+ Str.of_Z (len items) +:+ " images."))
  end.

Definition main (env : gmap string string) : M unit :=
  let token := py_or (getenv env "TELEGRAM_BOT_TOKEN") (PyInt 1) in
  let chat_id := py_or (getenv env "TELEGRAM_CHAT_ID") (PyInt 2) in
  run (if negb (truthy token) || negb (truthy chat_id)
       then run emit (Print "Please set TELEGRAM_BOT_TOKEN and TELEGRAM_CHAT_ID environment variables.");
            sys_exit 2
       else ret tt);
  for_each [1] (main_body env token chat_id) tt.

(** The exit status of the process: 0 when [main] returns, the argument
    of [sys.exit], 1 for an exception nothing caught. *)
Definition exit_status (r : outcome unit) : Z :=
  match r with
  | Returned _ => 0
  | Exited c => c
  | Raised _ => 1
  end.

End Program.

(** ** Notions of the specification *)

(** The origin of an absolute URL: its scheme and authority, that is the
    text up to the first of [/], [?], [#] after [://]. *)
Module Origin.

Definition is_scheme_char (c : ascii) : bool :=
  let n := Str.code c in
  (((97 <=? n) && (n <=? 122)) || ((65 <=? n) && (n <=? 90))
   || ((48 <=? n) && (n <=? 57)) || (n =? 43) || (n =? 45) || (n =? 46))%N.

Fixpoint authority (s : string) : string :=
  match s with
  | EmptyString => EmptyString
  | String c s' =>
      if Ascii.eqb c "/" || Ascii.eqb c "?" || Ascii.eqb c "#"
      then EmptyString else String c (authority s')
  end.

Fixpoint of_url (s : string) : option string :=
  match s with
  | EmptyString => None
  | String c s' =>
      if Ascii.eqb c ":" then
        match s' with
        | String "/" (String "/" r) => Some ("://" +:+ authority r)
        | _ => None
        end
      else if is_scheme_char c then String c <$> of_url s'
      else None
  end.

(** What follows the origin, up to the query or fragment. *)
Fixpoint until_query (s : string) : string :=
  match s with
  | EmptyString => EmptyString
  | String c s' =>
      if Ascii.eqb c "?" || Ascii.eqb c "#"
      then EmptyString else String c (until_query s')
  end.

Fixpoint drop (n : nat) (s : string) : string :=
  match n, s with
  | S k, String _ s' => drop k s'
  | _, _ => s
  end.

End Origin.

(** ** A small world to run the script in

    An instance of [Libs] for running the definitions on concrete inputs: the
    page parses to a given document, the image addresses listed in [down]
    cannot be fetched, the bot API answers [{"ok": true}] unless the caption
    is listed in [refused], and the world counts the requests it has seen.
    The URL functions cover plain [scheme://host/path] addresses. *)
Module Demo.

Definition path_of (url : string) : exn + string :=
  match Origin.of_url url with
  | Some o => inr (Origin.until_query (Origin.drop (String.length o) url))
  | None => inr (Origin.until_query url)
  end.

Definition join (base ref : string) : string :=
  default "" (Origin.of_url base) +:+ ref.

Definition is_digit (c : ascii) : bool :=
  ((48 <=? Str.code c) && (Str.code c <=? 57))%N.

Fixpoint digits (s : string) (acc : Z) : option Z :=
  match s with
  | EmptyString => Some acc
  | String c s' =>
      if is_digit c then digits s' (10 * acc + Z.of_N (Str.code c) - 48)
      else None
  end.

(** Whole numbers of seconds only. *)
Definition parse_seconds (s : string) : exn + Z :=
  match s with
  | EmptyString => inl (Exn "ValueError" "could not convert string to float: ''")
  | _ => match digits s 0 with
         | Some n => inr n
         | None => inl (Exn "ValueError"
                          ("could not convert string to float: '" +:+ s +:+ "'"))
         end
  end.

Definition member (s : string) (l : list string) : bool :=
  existsb (String.eqb s) l.

Definition ok_reply (body : string) : response :=
  Response body body None (inl (Exn "JSONDecodeError" "Expecting value")).

Definition get (down : list string) (req : get_request) (w : nat)
  : nat * (exn + response) :=
  (S w,
   if member (get_url req) down
   then inl (Exn "ConnectionError" "connection refused")
   else inr (ok_reply "payload")).

Definition post (refused : list string) (req : post_request) (w : nat)
  : nat * (exn + response) :=
  (S w,
   if member (post_caption req) refused
   then inr (Response "" "" (Some (Exn "HTTPError" "400 Client Error")) (inr (JOther "NoneType")))
   else inr (Response "" "" None (inr (JObject {[ "ok" := "True" ]})))).

Definition libs (page : node) (down refused : list string) : Libs := {|
  world := nat;
  pyfloat := Z;
  http_get := get down;
  http_post := post refused;
  html_parser := fun _ => page;
  urljoin := join;
  urlparse_path := path_of;
  unquote := fun s => s;
  float_of_str := parse_seconds;
  sleep := fun _ w => w
|}.

Definition a_tag (href : string) (inside : list node) : node :=
  Tag "a" {[ "href" := href ]} [] inside.
Definition img_tag (alt : string) : node :=
  Tag "img" {[ "src" := "thumb.jpg"; "alt" := alt ]} [] [].
Definition img_no_alt : node := Tag "img" {[ "src" := "thumb.jpg" ]} [] [].
Definition li_tag (inside : list node) : node := Tag "li" ∅ [] inside.

(** [<div class="newsimage"><ul> entries </ul></div>] inside a page. *)
Definition page_of (entries : list node) : node :=
  Tag "[document]" ∅ []
    [Tag "html" ∅ []
       [Tag "body" ∅ []
          [Tag "div" ∅ ["header"] [NavigableString "news"];
           Tag "div" ∅ ["newsimage"; "clearfix"] [Tag "ul" ∅ [] entries]]]].

Definition page_without_container : node :=
  Tag "[document]" ∅ []
    [Tag "html" ∅ [] [Tag "body" ∅ [] [Tag "div" ∅ ["header"] []]]].

Definition entry (href alt : string) : node :=
  li_tag [a_tag href [img_tag alt]].

Definition member_a : node := entry "/news/detail/1310405/1/" "Member A".

Definition three_entries : list node :=
  [entry "/news/detail/1310405/1/" "Member A";
   entry "/news/detail/1310405/2/" "Member B";
   entry "/news/detail/1310405/3/" "Member C"].

Definition credentials : gmap string string :=
  {[ "TELEGRAM_BOT_TOKEN" := "123:abc"; "TELEGRAM_CHAT_ID" := "-1001" ]}.

(** The page of the example of the specification: one entry. *)
Definition one_entry : Libs := libs (page_of [member_a]) [] [].

(** Three entries, all servers up. *)
Definition all_up : Libs := libs (page_of three_entries) [] [].

(** Three entries; the image of the second cannot be fetched. *)
Definition second_down : Libs :=
  libs (page_of three_entries) ["https://thetv.jp//i/nw/1310405/2.jpg"] [].

(** A page without the [newsimage] container. *)
Definition no_container : Libs := libs page_without_container [] [].

(** An entry without a link, one whose image has no [alt], and a
    protocol-relative link. *)
Definition unlinked : node := li_tag [img_tag "Banner"].
Definition uncaptioned : node :=
  li_tag [a_tag "/news/detail/1310405/4/" [img_no_alt]].
Definition bare_link : node :=
  li_tag [a_tag "//thetv.jp/news/detail/1310405/5/" []].

Definition mixed : Libs :=
  libs (page_of [unlinked; member_a; li_tag []; bare_link]) [] [].

Definition missing_alt : Libs := libs (page_of [uncaptioned; member_a]) [] [].

End Demo.

(** ** What the loops compute, and what a trace shows *)

Section Views.
Context `{L : Libs}.

(** The [href] of an entry's first anchor, when the entry passes the test
    of line 39. *)
Definition usable_href (li : node) : option string :=
  match Soup.find li "a" with
  | None => None
  | Some a =>
      match Soup.get a "href" with
      | None => None
      | Some href => if String.eqb href "" then None else Some href
      end
  end.

Definition has_usable_link (li : node) : bool :=
  match usable_href li with
  | Some _ => true
  | None => false
  end.

(** Line 54 on an entry. *)
Definition caption_of (li : node) : exn + string :=
  match Soup.find li "img" with
  | Some img =>
      match Soup.get img "alt" with
      | Some alt => inr alt
      | None => inl (KeyError "alt")
      end
  | None => inr ""
  end.

(** The value of the loop over the entries, from the list built so far. *)
Fixpoint extract (url : string) (lis : list node) (items : list item)
  : outcome (list item) :=
  match lis with
  | [] => Returned items
  | li :: lis' =>
      match usable_href li with
      | None => extract url lis' items
      | Some href =>
          match caption_of li with
          | inr caption =>
              extract url lis' (items ++ [(normalize url (item_src href), caption)])
          | inl e => Raised e
          end
      end
  end.

(** An entry whose image, if it has one, carries an [alt]. *)
Definition captioned (li : node) : Prop :=
  match Soup.find li "img" with
  | Some img => is_Some (Soup.get img "alt")
  | None => True
  end.

(** The caption of the specification: the [alt] of the entry's image, the
    empty string without one. *)
Definition alt_text (li : node) : string :=
  match Soup.find li "img" with
  | Some img => default "" (Soup.get img "alt")
  | None => ""
  end.

(** The item of an entry with a usable link. *)
Definition entry_item (li : node) : option item :=
  href ← usable_href li; Some (item_src href, alt_text li).

(** Observers of a trace. *)
Definition reply_ok (r : exn + response) : bool :=
  match r with
  | inr resp => match http_error resp with None => true | Some _ => false end
  | inl _ => false
  end.

(** A send counts when the reply is no error and its body is an object. *)
Definition send_ok (r : exn + response) : bool :=
  match r with
  | inr resp =>
      match http_error resp, resp_json resp with
      | None, inr (JObject _) => true
      | _, _ => false
      end
  | inl _ => false
  end.

Definition requested (t : list event) : list string :=
  omap (fun e => match e with HttpGet req _ => Some (get_url req) | _ => None end) t.

Definition fetched (t : list event) : list string :=
  omap (fun e => match e with
                 | HttpGet req r => if reply_ok r then Some (get_url req) else None
                 | _ => None
                 end) t.

Definition posted (t : list event) : list post_request :=
  omap (fun e => match e with HttpPost req _ => Some req | _ => None end) t.

Definition delivered (t : list event) : list post_request :=
  omap (fun e => match e with
                 | HttpPost req r => if send_ok r then Some req else None
                 | _ => None
                 end) t.

Definition printed (t : list event) : list string :=
  omap (fun e => match e with Print line => Some line | _ => None end) t.

(** The lines that report a failure. *)
Definition error_lines (t : list event) : list string :=
  List.filter (fun line => Str.startswith line "  Error ") (printed t).

Definition network_calls (t : list event) : list event :=
  List.filter (fun e => match e with
                        | HttpGet _ _ | HttpPost _ _ => true
                        | _ => false
                        end) t.

(** The value of [get_all_items], from the reply to the page request. *)
Definition page_outcome (url : string) (reply : exn + response)
  : outcome (list item) :=
  match reply with
  | inl e => Raised e
  | inr resp =>
      match http_error resp with
      | Some e => Raised e
      | None =>
          match Soup.find_all_class (html_parser (resp_text resp)) "div" "newsimage" with
          | [] => Raised IndexError
          | container :: _ => extract url (Soup.find_all container "li") []
          end
      end
  end.

Definition page_request : get_request := GetRequest URL 15 user_agent.

(** Lines 106-107: the credentials [main] works with. *)
Definition bot_token (env : gmap string string) : pyval :=
  py_or (getenv env "TELEGRAM_BOT_TOKEN") (PyInt 1).
Definition chat_id (env : gmap string string) : pyval :=
  py_or (getenv env "TELEGRAM_CHAT_ID") (PyInt 2).

(** The last line of a run that had items. *)
Definition summary (sent total : Z) : string :=
  "Done. Sent " +:+ Str.of_Z sent +:+ "/" +:+ Str.of_Z total +:+ " images.".

End Views.

(** The file name of the specification, from the path of the image URL:
    the text after the last [/], decoded, or the default; kept when its
    lower-case form ends in a listed extension. *)
Module FileName.

Fixpoint has_slash (s : string) : bool :=
  match s with
  | EmptyString => false
  | String c s' => Ascii.eqb c "/" || has_slash s'
  end.

Fixpoint last_segment (path : string) : string :=
  match path with
  | EmptyString => EmptyString
  | String _ s' => if has_slash path then last_segment s' else path
  end.

Definition recognized (name : string) : Prop :=
  exists stem ext,
    ext ∈ [".jpg"; ".jpeg"; ".png"; ".gif"; ".webp"] /\
    Str.lower name = stem +:+ ext.

Definition default_name : string := "file".

End FileName.

(** ** More observers of a run *)

Section Shapes.
Context `{L : Libs}.

(** [old in s] *)
Fixpoint occurs (old s : string) : bool :=
  String.prefix old s ||
  match s with
  | EmptyString => false
  | String _ s' => occurs old s'
  end.

(** Line 97: the endpoint a photo is posted to. *)
Definition api_url (token : pyval) : string :=
  "https://api.telegram.org/bot" +:+ py_str token +:+ "/sendPhoto".

(** Line 68: the request for an image. *)
Definition image_request (image_url : string) : get_request :=
  GetRequest image_url 20 ∅.

(** Lines 97-100 for an item whose image came in the reply [resp]. *)
Definition photo_request (token chat : pyval) (it : item) (resp : response)
  : post_request :=
  PostRequest (api_url token) chat it.2 (filename_of it.1) (resp_content resp) 60.

(** The network calls a list of items may leave, in order: for each item
    the request for its image and, when that request got a reply without
    error status, the post of the content received, under the item's
    caption. *)
Inductive exchanges (token chat : pyval) : list item -> list event -> Prop :=
| exchanges_nil : exchanges token chat [] []
| exchanges_failed (it : item) (items : list item) (reply : exn + response)
    (calls : list event) :
    reply_ok reply = false ->
    exchanges token chat items calls ->
    exchanges token chat (it :: items)
      (HttpGet (image_request it.1) reply :: calls)
| exchanges_posted (it : item) (items : list item) (resp : response)
    (reply : exn + response) (calls : list event) :
    http_error resp = None ->
    exchanges token chat items calls ->
    exchanges token chat (it :: items)
      (HttpGet (image_request it.1) (inr resp)
       :: HttpPost (photo_request token chat it resp) reply :: calls).

(** The pauses of a run: the fixed ones of line 148 and the configured ones
    of line 159. *)
Definition short_pauses (t : list event) : list Z :=
  omap (fun e => match e with Sleep (SecInt n) => Some n | _ => None end) t.

Definition delays (t : list event) : list pyfloat :=
  omap (fun e => match e with Sleep (SecFloat d) => Some d | _ => None end) t.

(** Line 130. *)
Definition progress_line (total : Z) (entry : Z * item) : string :=
  "[" +:+ Str.of_Z entry.1 +:+ "/" +:+ Str.of_Z total
  +:+ "] Processing: " +:+ entry.2.1.

Definition progress_lines (t : list event) : list string :=
  List.filter (fun line => Str.startswith line "[") (printed t).

(** An entry the loop of [get_all_items] gets past: one it skips, or one
    whose caption it can read. *)
Definition entry_ok (li : node) : bool :=
  match usable_href li, caption_of li with
  | Some _, inl _ => false
  | _, _ => true
  end.

End Shapes.

(** A world in which [urlparse] rejects addresses with a bracket, and the
    bot API answers with a body that is no JSON for the captions in
    [garbled] and with [{"ok": false}] for those in [declined]. *)
Module Probe.

Definition path_of (url : string) : exn + string :=
  if occurs "[" url then inl (Exn "ValueError" "Invalid IPv6 URL")
  else Demo.path_of url.

Definition post (garbled declined : list string) (req : post_request) (w : nat)
  : nat * (exn + response) :=
  (S w,
   if Demo.member (post_caption req) garbled
   then inr (Response "<html>" "<html>" None
               (inl (Exn "JSONDecodeError" "Expecting value: line 1 column 1 (char 0)")))
   else if Demo.member (post_caption req) declined
   then inr (Response "" "" None (inr (JObject {[ "ok" := "False" ]})))
   else inr (Response "" "" None (inr (JObject {[ "ok" := "True" ]})))).

Definition libs (page : node) (garbled declined : list string) : Libs := {|
  world := nat;
  pyfloat := Z;
  http_get := Demo.get [];
  http_post := post garbled declined;
  html_parser := fun _ => page;
  urljoin := Demo.join;
  urlparse_path := path_of;
  unquote := fun s => s;
  float_of_str := Demo.parse_seconds;
  sleep := fun _ w => w
|}.

Definition picky : Libs :=
  libs (Demo.page_of Demo.three_entries) ["Member B"] ["Member C"].

End Probe.

(** * Properties *)

(** ** Strings *)

Example strip_ex : Str.strip "  /a b/ " = "/a b/".
Proof. reflexivity. Qed.
Example replace_ex :
  Str.replace "/news/detail/1/news/detail/" "/news/detail/" "/i/nw/" = "/i/nw/1/i/nw/".
Proof. reflexivity. Qed.
Example split_ex : Str.split "/i/nw//1.jpg" "/" = [""; "i"; "nw"; ""; "1.jpg"].
Proof. reflexivity. Qed.
Example lower_ex : Str.lower "A.JpG" = "a.jpg".
Proof. reflexivity. Qed.
Example of_Z_ex : Str.of_Z 1 = "1" /\ Str.of_Z 0 = "0" /\ Str.of_Z 12 = "12".
Proof. repeat split. Qed.
Example endswith_ex :
  Str.endswith "a.jpg" ".jpg" = true /\ Str.endswith "a.jpgx" ".jpg" = false.
Proof. split; reflexivity. Qed.

Lemma append_cons (c : ascii) (s t : string) :
  String c s +:+ t = String c (s +:+ t).
Proof. reflexivity. Qed.

Lemma append_nil_l (s : string) : "" +:+ s = s.
Proof. reflexivity. Qed.

Lemma append_nil_r (s : string) : s +:+ "" = s.
Proof.
  induction s as [|c s IH]; [done |]. by rewrite append_cons, IH.
Qed.

Lemma append_assoc (a b c : string) : (a +:+ b) +:+ c = a +:+ (b +:+ c).
Proof.
  induction a as [|x a IH]; [done |]. by rewrite !append_cons, IH.
Qed.

Lemma prefix_nil (s : string) : String.prefix "" s = true.
Proof. by destruct s. Qed.

Lemma startswith_app (p s : string) : Str.startswith (p +:+ s) p = true.
Proof.
  unfold Str.startswith.
  induction p as [|c p IH]; [apply prefix_nil |].
  rewrite append_cons. simpl. by destruct (ascii_dec c c).
Qed.

Lemma endswith_refl (s : string) : Str.endswith s s = true.
Proof. destruct s; simpl; [done |]. by rewrite Ascii.eqb_refl, String.eqb_refl. Qed.

Lemma endswith_app (p suf : string) : Str.endswith (p +:+ suf) suf = true.
Proof.
  induction p as [|c p IH]; [apply endswith_refl |].
  rewrite append_cons. simpl. rewrite IH. apply orb_true_r.
Qed.

Lemma endswith_inv (s suf : string) :
  Str.endswith s suf = true -> exists p, s = p +:+ suf.
Proof.
  induction s as [|c s IH]; simpl.
  - rewrite orb_false_r. destruct suf; [|done]. by exists "".
  - intros [Heq|Htl]%orb_true_iff.
    + apply (String.eqb_eq (String c s)) in Heq. by exists "".
    + destruct (IH Htl) as [p ->]. by exists (String c p).
Qed.

Lemma endswith_spec (s suf : string) :
  Str.endswith s suf = true <-> exists p, s = p +:+ suf.
Proof.
  split; [apply endswith_inv | intros [p ->]; apply endswith_app].
Qed.

Lemma endswith_any_spec (s : string) (sufs : list string) :
  Str.endswith_any s sufs = true <->
  exists p suf, suf ∈ sufs /\ s = p +:+ suf.
Proof.
  unfold Str.endswith_any. rewrite existsb_exists. split.
  - intros (suf & Hin & [p ->]%endswith_spec).
    exists p, suf. by rewrite list_elem_of_In.
  - intros (p & suf & Hin & ->). exists suf.
    split; [by apply list_elem_of_In | apply endswith_app].
Qed.

Lemma split_no_slash (s : string) :
  FileName.has_slash s = false -> Str.split s "/" = [s].
Proof.
  induction s as [|c s IH]; simpl; [done |].
  intros [Hc Hs]%orb_false_iff. rewrite Hc, (IH Hs). done.
Qed.

Lemma split_slash (s : string) :
  FileName.has_slash s = true -> exists h x t, Str.split s "/" = h :: x :: t.
Proof.
  induction s as [|c s IH]; simpl; [done |].
  destruct (Ascii.eqb c "/") eqn:Hc; simpl.
  - intros _. destruct (FileName.has_slash s) eqn:Hs.
    + destruct (IH eq_refl) as (h & x & t & ->). by exists "", h, (x :: t).
    + rewrite (split_no_slash s Hs). by exists "", s, [].
  - intros Hs. destruct (IH Hs) as (h & x & t & ->). by exists (String c h), x, t.
Qed.

(** [path.split("/")[-1]] is the text after the last [/]. *)
Lemma split_last (s : string) :
  last (Str.split s "/") = Some (FileName.last_segment s).
Proof.
  induction s as [|c s IH]; [done |].
  destruct (FileName.has_slash (String c s)) eqn:Hcs.
  - change (FileName.last_segment (String c s))
      with (if FileName.has_slash (String c s)
            then FileName.last_segment s else String c s).
    rewrite Hcs, <- IH. simpl in *.
    destruct (Ascii.eqb c "/") eqn:Hc; simpl in Hcs.
    + destruct (FileName.has_slash s) eqn:Hs.
      * by destruct (split_slash s Hs) as (h & x & t & ->).
      * by rewrite (split_no_slash s Hs).
    + by destruct (split_slash s Hcs) as (h & x & t & ->).
  - rewrite (split_no_slash _ Hcs). simpl. simpl in Hcs. by rewrite Hcs.
Qed.

(** ** The image address of an entry *)

Section ItemSrc.
Context `{L : Libs}.

Lemma item_src_startswith (href : string) :
  Str.startswith (item_src href) "https://thetv.jp/" = true.
Proof. apply startswith_app. Qed.

Lemma item_src_endswith (href : string) :
  Str.endswith (item_src href) ".jpg" = true.
Proof. unfold item_src. rewrite <- append_assoc. apply endswith_app. Qed.

Lemma item_src_nonempty (href : string) : item_src href <> "".
Proof. done. Qed.

(** Neither test of lines 48-51 holds of an address built on line 41. *)
Lemma item_src_branch (href : string) :
  normalize_branch (item_src href) = Unchanged.
Proof. reflexivity. Qed.

Lemma normalize_item_src (url href : string) :
  normalize url (item_src href) = item_src href.
Proof. unfold normalize. by rewrite item_src_branch. Qed.

Lemma item_src_origin (href : string) :
  Origin.of_url (item_src href) = Origin.of_url URL.
Proof. reflexivity. Qed.

End ItemSrc.

(** ** Traces *)

Section Traces.
Context `{L : Libs}.

Lemma requested_app (t1 t2 : list event) :
  requested (t1 ++ t2) = requested t1 ++ requested t2.
Proof. apply omap_app. Qed.

Lemma fetched_app (t1 t2 : list event) :
  fetched (t1 ++ t2) = fetched t1 ++ fetched t2.
Proof. apply omap_app. Qed.

Lemma posted_app (t1 t2 : list event) :
  posted (t1 ++ t2) = posted t1 ++ posted t2.
Proof. apply omap_app. Qed.

Lemma delivered_app (t1 t2 : list event) :
  delivered (t1 ++ t2) = delivered t1 ++ delivered t2.
Proof. apply omap_app. Qed.

Lemma error_lines_app (t1 t2 : list event) :
  error_lines (t1 ++ t2) = error_lines t1 ++ error_lines t2.
Proof.
  unfold error_lines, printed. by rewrite omap_app, List.filter_app.
Qed.

Lemma network_calls_app (t1 t2 : list event) :
  network_calls (t1 ++ t2) = network_calls t1 ++ network_calls t2.
Proof. apply List.filter_app. Qed.

End Traces.

(** ** The extractor *)

Section Extractor.
Context `{L : Libs}.

(** One entry: the world is untouched, nothing is requested, and the
    list grows by the entry's item, stays, or the step raises. *)
Lemma li_step_run (url : string) (li : node) (items : list item) (w : world) :
  exists t,
    li_step url li items w =
      (w, t,
       match usable_href li with
       | None => Returned items
       | Some href =>
           match caption_of li with
           | inr caption =>
               Returned (items ++ [(normalize url (item_src href), caption)])
           | inl e => Raised e
           end
       end)
    /\ network_calls t = [].
Proof.
  unfold li_step, usable_href, caption_of, getitem, bind, emit, ret, raise.
  destruct (Soup.find li "a") as [a|]; [|by eexists].
  destruct (Soup.get a "href") as [href|]; [|by eexists].
  destruct (String.eqb href ""); [by eexists |].
  destruct (Soup.find li "img") as [img|]; [|by eexists].
  destruct (Soup.get img "alt") as [alt|]; by eexists.
Qed.

Lemma entries_run (url : string) (lis : list node) :
  forall (items : list item) (w : world),
  exists t,
    for_each lis (li_step url) items w = (w, t, extract url lis items)
    /\ network_calls t = [].
Proof.
  induction lis as [|li lis IH]; intros items w; [by eexists |].
  destruct (li_step_run url li items w) as (t1 & Hstep & Hn1).
  simpl. unfold bind at 1. rewrite Hstep.
  destruct (usable_href li) as [href|].
  - destruct (caption_of li) as [e|caption]; [by exists t1 |].
    destruct (IH (items ++ [(normalize url (item_src href), caption)]) w)
      as (t2 & -> & Hn2).
    exists (t1 ++ t2). by rewrite network_calls_app, Hn1, Hn2.
  - destruct (IH items w) as (t2 & -> & Hn2).
    exists (t1 ++ t2). by rewrite network_calls_app, Hn1, Hn2.
Qed.

(** [get_all_items] makes one request, for the page, and its value is
    decided by the reply. *)
Lemma get_all_items_run (url : string) (i : Z) (w : world) :
  let req := GetRequest url 15 user_agent in
  exists t,
    get_all_items url i w =
      ((http_get req w).1, HttpGet req (http_get req w).2 :: t,
       page_outcome url (http_get req w).2)
    /\ network_calls t = [].
Proof.
  intros req. unfold get_all_items, bind at 1, requests_get. fold req.
  destruct (http_get req w) as [w1 [e|resp]]; simpl; [by exists [] |].
  unfold bind at 1, raise_for_status.
  destruct (http_error resp) as [e|]; [by exists [] |].
  unfold ret at 1, bind at 1, index0.
  destruct (Soup.find_all_class _ _ _) as [|container rest]; [by exists [] |].
  unfold ret at 1.
  destruct (entries_run url (Soup.find_all container "li") [] w1)
    as (t & -> & Hn).
  by exists t.
Qed.

(** The loop only appends, and what it appends is built on line 41. *)
Lemma extract_grows (url : string) (lis : list node) :
  forall items result,
    extract url lis items = Returned result ->
    exists new,
      result = items ++ new /\
      Forall (fun it : item => exists href, it.1 = item_src href) new.
Proof.
  induction lis as [|li lis IH]; intros items result; simpl.
  - intros [= <-]. exists []. by rewrite app_nil_r.
  - destruct (usable_href li) as [href|]; [|apply IH].
    destruct (caption_of li) as [e|caption]; [done |].
    intros (new & -> & Hnew)%IH.
    exists ((normalize url (item_src href), caption) :: new).
    split; [by rewrite <- app_assoc |].
    constructor; [|done]. exists href. apply normalize_item_src.
Qed.

Lemma extract_not_exited (url : string) (lis : list node) :
  forall items code, extract url lis items <> Exited code.
Proof.
  induction lis as [|li lis IH]; intros items code; simpl; [done |].
  destruct (usable_href li); [|apply IH].
  destruct (caption_of li); [done | apply IH].
Qed.

Lemma caption_of_captioned (li : node) :
  captioned li -> caption_of li = inr (alt_text li).
Proof.
  unfold captioned, caption_of, alt_text.
  destruct (Soup.find li "img") as [img|]; [|done].
  by intros [alt ->].
Qed.

(** When every entry with a usable link is captioned, the loop returns
    the items of those entries, in the order of the entries. *)
Lemma extract_captioned (url : string) (lis : list node) :
  (forall li, li ∈ lis -> has_usable_link li = true -> captioned li) ->
  forall items,
    extract url lis items = Returned (items ++ omap entry_item lis).
Proof.
  induction lis as [|li lis IH]; intros Hwf items; simpl.
  - by rewrite app_nil_r.
  - assert (Htl : forall li', li' ∈ lis -> has_usable_link li' = true -> captioned li')
      by (intros li' Hin; apply Hwf; by right).
    pose proof (Hwf li (list_elem_of_here _ _)) as Hli.
    unfold entry_item at 1. unfold has_usable_link in Hli.
    destruct (usable_href li) as [href|]; simpl.
    + rewrite caption_of_captioned by (by apply Hli).
      rewrite (IH Htl), normalize_item_src, <- app_assoc. done.
    + by apply IH.
Qed.

(** The value of [get_all_items] when the page came and has the
    container. *)
Lemma get_all_items_page (i : Z) (w w1 : world) (resp : response)
    (container : node) (rest : list node) :
  http_get page_request w = (w1, inr resp) ->
  http_error resp = None ->
  Soup.find_all_class (html_parser (resp_text resp)) "div" "newsimage"
    = container :: rest ->
  exists t,
    get_all_items URL i w
    = (w1, HttpGet page_request (inr resp) :: t,
       extract URL (Soup.find_all container "li") [])
    /\ network_calls t = [].
Proof.
  intros Hget Herr Hfind.
  destruct (get_all_items_run URL i w) as (t & Hrun & Hnet).
  exists t. split; [|done]. rewrite Hrun.
  change (GetRequest URL 15 user_agent) with page_request.
  rewrite Hget. unfold page_outcome. simpl. by rewrite Herr, Hfind.
Qed.

End Extractor.

(** ** The loop over the items *)

Section Loop.
Context `{L : Libs}.

Local Ltac run_script :=
  unfold process_item, download_image_bytes, send_photo_telegram,
    json_get_str, requests_get, session_post, raise_for_status, time_sleep,
    lift, bind, try_except, emit, ret, raise;
  repeat (simpl; case_match; simplify_eq).

Local Ltac observe :=
  unfold error_lines, printed, requested, posted, fetched, delivered,
    reply_ok, send_ok; simpl;
  repeat match goal with
         | H : http_error _ = _ |- _ => rewrite H; clear H
         | H : resp_json _ = _ |- _ => rewrite H; clear H
         end;
  simpl.

(** One item: whatever the replies, the body returns; it asks for the
    image once, posts when the image came, and either delivers and counts
    or logs one error. *)
Lemma process_item_run (token chat : pyval) (delay : pyfloat) (total idx : Z)
    (image_url caption : string) (sent : Z) (w : world) :
  exists w' t sent',
    process_item token chat delay total (idx, (image_url, caption)) sent w =
      (w', t, Returned sent')
    /\ sent' = sent + Z.of_nat (length (delivered t))
    /\ requested t = [image_url]
    /\ length (posted t) = length (fetched t)
    /\ (length (error_lines t) + length (delivered t) = 1)%nat.
Proof.
  run_script.
  all: eexists _, _, _; (split; [reflexivity |]).
  all: observe; repeat split; (done || lia).
Qed.

Lemma items_loop_run (token chat : pyval) (delay : pyfloat) (total : Z)
    (items : list item) :
  forall (start sent : Z) (w : world),
  exists w' t sent',
    for_each (enumerate items start) (process_item token chat delay total) sent w =
      (w', t, Returned sent')
    /\ sent' = sent + Z.of_nat (length (delivered t))
    /\ requested t = items.*1
    /\ length (posted t) = length (fetched t)
    /\ (length (error_lines t) + length (delivered t) = length items)%nat.
Proof.
  induction items as [|[image_url caption] items IH]; intros start sent w.
  - exists w, [], sent. simpl. repeat split; (done || lia).
  - destruct (process_item_run token chat delay total start image_url caption sent w)
      as (w1 & t1 & sent1 & Hrun1 & -> & Hreq1 & Hpost1 & Hlog1).
    destruct (IH (start + 1) (sent + Z.of_nat (length (delivered t1))) w1)
      as (w2 & t2 & sent2 & Hrun2 & -> & Hreq2 & Hpost2 & Hlog2).
    exists w2, (t1 ++ t2), (sent + Z.of_nat (length (delivered t1))
                            + Z.of_nat (length (delivered t2))).
    split.
    { change (for_each (enumerate ((image_url, caption) :: items) start) ?b sent w)
        with (bind (b (start, (image_url, caption)) sent)
                (for_each (enumerate items (start + 1)) b) w).
      unfold bind at 1. by rewrite Hrun1, Hrun2. }
    rewrite requested_app, posted_app, fetched_app, delivered_app,
      error_lines_app, !length_app, Hreq1, Hreq2.
    simpl. repeat split; (done || lia).
Qed.

End Loop.

(** ** [main] *)

Section Main.
Context `{L : Libs}.

Lemma py_or_truthy (a b : pyval) : truthy b = true -> truthy (py_or a b) = true.
Proof. intros Hb. unfold py_or. by destruct (truthy a) eqn:Ha. Qed.

(** The test of line 108 never holds: the values it looks at were made
    truthy on the two lines before. *)
Lemma credentials_guard (env : gmap string string) :
  negb (truthy (bot_token env)) || negb (truthy (chat_id env)) = false.
Proof.
  unfold bot_token, chat_id. by rewrite !py_or_truthy.
Qed.

Lemma bind_ret_r {A} (m : M A) (w : world) : bind m ret w = m w.
Proof.
  unfold bind, ret. destruct (m w) as [[w1 t1] [a|e|c]]; [|done..].
  by rewrite app_nil_r.
Qed.

Lemma main_run (env : gmap string string) (w : world) :
  main env w = main_body env (bot_token env) (chat_id env) 1 tt w.
Proof.
  unfold main. fold (bot_token env) (chat_id env).
  rewrite credentials_guard. unfold bind at 1, ret at 1.
  change (for_each [1] ?b tt) with (bind (b 1 tt) ret).
  rewrite bind_ret_r.
  by destruct (main_body _ _ _ _ _ _) as [[w1 t1] r].
Qed.

Lemma main_fetch_failed (env : gmap string string) (w w1 : world)
    (t1 : list event) (e : exn) :
  get_all_items URL 1 w = (w1, t1, Raised e) ->
  main env w =
    (w1, t1 ++ [Print ("Error fetching/parsing page: " +:+ exn_str e)], Exited 1).
Proof.
  intros Hget. rewrite main_run. unfold main_body, bind at 1, try_except.
  by rewrite Hget.
Qed.

Lemma main_no_items (env : gmap string string) (w w1 : world)
    (t1 : list event) :
  get_all_items URL 1 w = (w1, t1, Returned []) ->
  main env w = (w1, t1 ++ [Print "No items found on the page."], Returned tt).
Proof.
  intros Hget. rewrite main_run. unfold main_body, bind at 1, try_except.
  by rewrite Hget.
Qed.

Lemma main_bad_delay (env : gmap string string) (w w1 : world)
    (t1 : list event) (items : list item) (e : exn) :
  get_all_items URL 1 w = (w1, t1, Returned items) ->
  items <> [] ->
  float_of_str (getenv_default env "TELEGRAM_DELAY_SECONDS" "1") = inl e ->
  main env w = (w1, t1, Raised e).
Proof.
  intros Hget Hne Hfloat. rewrite main_run.
  unfold main_body, bind at 1, try_except. rewrite Hget.
  destruct items as [|it items]; [done |].
  unfold bind at 1. rewrite Hfloat. simpl. by rewrite app_nil_r.
Qed.

Lemma main_items_loop (env : gmap string string) (w w1 w2 : world)
    (t1 t2 : list event) (items : list item) (delay : pyfloat) (sent : Z) :
  get_all_items URL 1 w = (w1, t1, Returned items) ->
  items <> [] ->
  float_of_str (getenv_default env "TELEGRAM_DELAY_SECONDS" "1") = inr delay ->
  for_each (enumerate items 1)
    (process_item (bot_token env) (chat_id env) delay (len items)) 0 w1
  = (w2, t2, Returned sent) ->
  main env w
  = (w2, t1 ++ t2 ++ [Print (summary sent (len items))], Returned tt).
Proof.
  intros Hget Hne Hfloat Hloop. rewrite main_run.
  unfold main_body, bind at 1, try_except. rewrite Hget.
  destruct items as [|it items]; [done |].
  unfold bind at 1. rewrite Hfloat. unfold lift, ret at 1.
  unfold bind at 1. rewrite Hloop. unfold emit, summary. simpl.
  done.
Qed.

End Main.

(** ** Properties of the extractor *)

Section ExtractorClaims.
Context `{L : Libs}.

Lemma page_outcome_not_exited (url : string) (reply : exn + response) (code : Z) :
  page_outcome url reply <> Exited code.
Proof.
  unfold page_outcome. destruct reply as [e|resp]; [done |].
  destruct (http_error resp); [done |].
  destruct (Soup.find_all_class _ _ _); [done | apply extract_not_exited].
Qed.

(** What [get_all_items] returns was built on line 41. *)
Lemma get_all_items_built (url : string) (i : Z) (w w' : world)
    (t : list event) (items : list item) :
  get_all_items url i w = (w', t, Returned items) ->
  Forall (fun it : item => exists href, it.1 = item_src href) items.
Proof.
  destruct (get_all_items_run url i w) as (t0 & -> & _). intros [= _ _ Hout].
  unfold page_outcome in Hout.
  destruct (http_get _ w).2 as [e|resp]; [done |].
  destruct (http_error resp); [done |].
  destruct (Soup.find_all_class _ _ _) as [|container rest]; [done |].
  by destruct (extract_grows _ _ _ _ Hout) as (new & -> & Hnew).
Qed.

Lemma length_omap_entry_item (lis : list node) :
  length (omap entry_item lis) = length (List.filter has_usable_link lis).
Proof.
  induction lis as [|li lis IH]; [done |].
  change (omap entry_item (li :: lis))
    with (match entry_item li with
          | Some it => it :: omap entry_item lis
          | None => omap entry_item lis
          end).
  change (List.filter has_usable_link (li :: lis))
    with (if has_usable_link li
          then li :: List.filter has_usable_link lis
          else List.filter has_usable_link lis).
  unfold entry_item at 1, has_usable_link at 1.
  destruct (usable_href li) as [href|]; simpl; by rewrite IH.
Qed.

End ExtractorClaims.

(** A run is known from its final world, its trace and its outcome. *)
Lemma run_eta {W T R : Type} (x : W * T * R) (w : W) (r : R) :
  x.1.1 = w -> x.2 = r -> x = (w, x.1.2, r).
Proof. destruct x as [[w0 t0] r0]. simpl. by intros -> ->. Qed.

(** C9.  Every item [get_all_items] returns has an image address that
    begins with [https://thetv.jp/] and ends with [.jpg], so it is neither
    empty nor relative; and for no [href] does the address built on line 41
    take the protocol-relative or the root-relative branch of lines 48-51. *)
Theorem items_are_absolute_jpg `{L : Libs} :
  (forall href : string, normalize_branch (item_src href) = Unchanged) /\
  (forall (url : string) (i : Z) (w w' : world) (t : list event) (items : list item),
      get_all_items url i w = (w', t, Returned items) ->
      Forall (fun it : item =>
                Str.startswith it.1 "https://thetv.jp/" = true
                /\ Str.endswith it.1 ".jpg" = true
                /\ it.1 <> ""
                /\ Str.startswith it.1 "/" = false) items).
Proof.
  split; [apply item_src_branch |].
  intros url i w w' t items Hget.
  eapply Forall_impl; [by eapply get_all_items_built |].
  intros [src caption] [href ->]. simpl.
  split; [apply item_src_startswith |].
  split; [apply item_src_endswith |]. done.
Qed.

Lemma items_are_absolute_jpg_witness :
  @get_all_items Demo.mixed URL 1 0%nat
  = (1%nat, (@get_all_items Demo.mixed URL 1 0%nat).1.2,
     Returned [("https://thetv.jp//i/nw/1310405/1.jpg", "Member A");
               ("https://thetv.jp///thetv.jp/i/nw/1310405/5.jpg", "")])
  /\ Forall (fun it : item =>
               Str.startswith it.1 "https://thetv.jp/" = true
               /\ Str.endswith it.1 ".jpg" = true
               /\ it.1 <> ""
               /\ Str.startswith it.1 "/" = false)
       [("https://thetv.jp//i/nw/1310405/1.jpg", "Member A");
        ("https://thetv.jp///thetv.jp/i/nw/1310405/5.jpg", "")].
Proof.
  assert (Hrun : @get_all_items Demo.mixed URL 1 0%nat
                 = (1%nat, (@get_all_items Demo.mixed URL 1 0%nat).1.2,
                    Returned [("https://thetv.jp//i/nw/1310405/1.jpg", "Member A");
                              ("https://thetv.jp///thetv.jp/i/nw/1310405/5.jpg", "")]))
    by (apply run_eta; vm_compute; reflexivity).
  split; [exact Hrun |].
  exact (proj2 (@items_are_absolute_jpg Demo.mixed) URL 1 0%nat 1%nat _ _ Hrun).
Defined.

(** A link that begins with a slash and has something after it still
    begins with a slash once its last character is dropped and the detail
    segment rewritten. *)
Lemma rewritten_keeps_slash (c : ascii) (r : string) :
  exists rest,
    Str.replace (Str.drop_last (String "/" (String c r))) "/news/detail/" "/i/nw/"
    = String "/" rest.
Proof.
  change (Str.drop_last (String "/" (String c r)))
    with (String "/" (Str.drop_last (String c r))).
  unfold Str.replace.
  change (Str.replace_go ?o ?n 0 (String "/" ?x))
    with (if String.prefix o (String "/" x)
          then n +:+ Str.replace_go o n (String.length o - 1) x
          else String "/" (Str.replace_go o n 0 x)).
  destruct (String.prefix _ _); by eexists.
Qed.

Lemma rewritten_keeps_two_slashes (c : ascii) (r : string) :
  exists rest,
    Str.replace (Str.drop_last (String "/" (String "/" (String c r))))
      "/news/detail/" "/i/nw/"
    = String "/" (String "/" rest).
Proof.
  destruct (rewritten_keeps_slash c r) as [rest Hrest].
  exists rest. revert Hrest.
  change (Str.drop_last (String "/" (String "/" (String c r))))
    with (String "/" (Str.drop_last (String "/" (String c r)))).
  unfold Str.replace.
  change (Str.replace_go ?o ?n 0 (String "/" (Str.drop_last (String "/" (String c r)))))
    with (String "/" (Str.replace_go o n 0 (Str.drop_last (String "/" (String c r))))).
  by intros ->.
Qed.

(** C8 (code defect, the one of C3).  A link that is root-relative or
    protocol-relative is not normalized.  Its image address is the literal
    [https://thetv.jp/] of line 42 followed by the rewritten link, slash
    included: it begins with [https://thetv.jp//], and with
    [https://thetv.jp///] for a protocol-relative link, whose host ends up
    in the path; lines 48-51 leave it as it is, for every page address; and
    this is the address of the item the extractor returns for the entry. *)
Theorem relative_href_is_not_normalized `{L : Libs} :
  (forall (url href : string) (c : ascii) (r : string),
      Str.strip href = String "/" (String c r) ->
      normalize url (item_src href) = item_src href
      /\ exists rest, item_src href = "https://thetv.jp//" +:+ rest)
  /\ (forall (href : string) (c : ascii) (r : string),
        Str.strip href = String "/" (String "/" (String c r)) ->
        exists rest, item_src href = "https://thetv.jp///" +:+ rest)
  /\ (forall (li : node) (href : string) (c : ascii) (r : string)
             (items : list item) (w : world),
        usable_href li = Some href ->
        Str.strip href = String "/" (String c r) ->
        captioned li ->
        exists t rest,
          li_step URL li items w
          = (w, t, Returned (items ++ [("https://thetv.jp//" +:+ rest, alt_text li)]))).
Proof.
  assert (Hslash : forall href c r,
             Str.strip href = String "/" (String c r) ->
             exists rest, item_src href = "https://thetv.jp//" +:+ rest).
  { intros href c r Hstrip. unfold item_src. rewrite Hstrip.
    destruct (rewritten_keeps_slash c r) as [rest ->].
    by exists (rest +:+ ".jpg"). }
  split; [|split].
  - intros url href c r Hstrip. split; [apply normalize_item_src | by eapply Hslash].
  - intros href c r Hstrip. unfold item_src. rewrite Hstrip.
    destruct (rewritten_keeps_two_slashes c r) as [rest ->].
    by exists (rest +:+ ".jpg").
  - intros li href c r items w Hhref Hstrip Hcap.
    destruct (li_step_run URL li items w) as (t & Hstep & _).
    rewrite Hhref, (caption_of_captioned li Hcap), normalize_item_src in Hstep.
    destruct (Hslash href c r Hstrip) as [rest Hrest].
    exists t, rest. by rewrite <- Hrest.
Qed.

Lemma relative_href_is_not_normalized_witness :
  (exists rest,
      item_src "//thetv.jp/news/detail/1310405/5/" = "https://thetv.jp///" +:+ rest)
  /\ item_src "//thetv.jp/news/detail/1310405/5/"
     = "https://thetv.jp///thetv.jp/i/nw/1310405/5.jpg"
  /\ (exists t rest,
        @li_step Demo.mixed URL Demo.member_a [] 0%nat
        = (0%nat, t,
           Returned ([] ++ [("https://thetv.jp//" +:+ rest, alt_text Demo.member_a)]))).
Proof.
  split; [|split].
  - apply (proj1 (proj2 (@relative_href_is_not_normalized Demo.mixed))
             "//thetv.jp/news/detail/1310405/5/" "t"%char "hetv.jp/news/detail/1310405/5/").
    vm_compute; reflexivity.
  - vm_compute; reflexivity.
  - apply (proj2 (proj2 (@relative_href_is_not_normalized Demo.mixed))
             Demo.member_a "/news/detail/1310405/1/" "n"%char "ews/detail/1310405/1/"
             [] 0%nat).
    + vm_compute; reflexivity.
    + vm_compute; reflexivity.
    + vm_compute. by eexists.
Defined.

(** The run of [get_all_items] on a page whose entries with a usable link
    are all captioned. *)
Lemma captioned_entries_run `{L : Libs} (i : Z) (w w1 : world)
    (resp : response) (container : node) (rest : list node) :
  http_get page_request w = (w1, inr resp) ->
  http_error resp = None ->
  Soup.find_all_class (html_parser (resp_text resp)) "div" "newsimage"
    = container :: rest ->
  (forall li, li ∈ Soup.find_all container "li" ->
              has_usable_link li = true -> captioned li) ->
  exists t,
    get_all_items URL i w
    = (w1, t, Returned (omap entry_item (Soup.find_all container "li"))).
Proof.
  intros Hget Herr Hfind Hwf.
  destruct (get_all_items_page i w w1 resp container rest Hget Herr Hfind)
    as (t & Hrun & _).
  rewrite (extract_captioned URL _ Hwf []) in Hrun. by eexists.
Qed.

(** On the pages where every entry with a usable link is captioned (its
    image, if any, carries an [alt]), [get_all_items] returns without an
    exception exactly the items of the entries with a usable link, in the
    order of the entries: as many items as such entries, each with a
    non-empty image address; an entry without an anchor or [href]
    contributes nothing and raises nothing. *)
Lemma captioned_entries_extracted `{L : Libs} (i : Z) (w w1 : world)
    (resp : response) (container : node) (rest : list node) :
  http_get page_request w = (w1, inr resp) ->
  http_error resp = None ->
  Soup.find_all_class (html_parser (resp_text resp)) "div" "newsimage"
    = container :: rest ->
  (forall li, li ∈ Soup.find_all container "li" ->
              has_usable_link li = true -> captioned li) ->
  exists t items,
    get_all_items URL i w = (w1, t, Returned items)
    /\ items = omap entry_item (Soup.find_all container "li")
    /\ length items
       = length (List.filter has_usable_link (Soup.find_all container "li"))
    /\ Forall (fun it : item => it.1 <> "") items.
Proof.
  intros Hget Herr Hfind Hwf.
  destruct (captioned_entries_run i w w1 resp container rest Hget Herr Hfind Hwf)
    as (t & Hrun).
  eexists _, _. split; [exact Hrun |]. split; [done |].
  split; [apply length_omap_entry_item |].
  apply Forall_forall. intros [src caption] Hin.
  apply list_elem_of_omap in Hin as (li & _ & Hitem).
  unfold entry_item in Hitem.
  destruct (usable_href li) as [href|]; [|done].
  injection Hitem as <- _. apply item_src_nonempty.
Qed.

(** On the page whose only entry has [href="/news/detail/1310405/1/"] and
    [alt="Member A"] the extractor does not return the item with the
    address [https://thetv.jp/i/nw/1310405/1.jpg]. *)
Lemma member_a_single_slash_refuted :
  (@get_all_items Demo.one_entry URL 1 0%nat).2
  <> Returned [("https://thetv.jp/i/nw/1310405/1.jpg", "Member A")].
Proof. vm_compute. discriminate. Qed.

(** C3 (code defect).  For the entry with [href="/news/detail/1310405/1/"]
    and [alt="Member A"] the extractor returns the item with the address
    [https://thetv.jp//i/nw/1310405/1.jpg], not the
    [https://thetv.jp/i/nw/1310405/1.jpg] of the specification.  Line 42
    puts the host and a slash before the rewritten link, which begins with
    a slash itself; lines 48-51, which on the rewritten link alone take the
    root-relative branch and resolve it against the page, are left without
    effect. *)
Theorem member_a_gets_double_slash `{L : Libs} (i : Z) (w w1 : world)
    (resp : response) (container : node) (rest : list node) (li a img : node) :
  http_get page_request w = (w1, inr resp) ->
  http_error resp = None ->
  Soup.find_all_class (html_parser (resp_text resp)) "div" "newsimage"
    = container :: rest ->
  Soup.find_all container "li" = [li] ->
  Soup.find li "a" = Some a ->
  Soup.get a "href" = Some "/news/detail/1310405/1/" ->
  Soup.find li "img" = Some img ->
  Soup.get img "alt" = Some "Member A" ->
  (exists t,
      get_all_items URL i w
      = (w1, t, Returned [("https://thetv.jp//i/nw/1310405/1.jpg", "Member A")]))
  /\ (get_all_items URL i w).2
     <> Returned [("https://thetv.jp/i/nw/1310405/1.jpg", "Member A")]
  /\ normalize_branch
       (Str.replace (Str.drop_last (Str.strip "/news/detail/1310405/1/"))
          "/news/detail/" "/i/nw/" +:+ ".jpg")
     = RootRelative
  /\ normalize_branch (item_src "/news/detail/1310405/1/") = Unchanged.
Proof.
  intros Hget Herr Hfind Hli Ha Hhref Himg Halt.
  destruct (get_all_items_page i w w1 resp container rest Hget Herr Hfind)
    as (t & Hrun & _).
  assert (Hitems : extract URL (Soup.find_all container "li") []
                   = Returned [("https://thetv.jp//i/nw/1310405/1.jpg", "Member A")]).
  { rewrite Hli. simpl. unfold usable_href, caption_of.
    rewrite Ha, Hhref, Himg, Halt. simpl. by rewrite normalize_item_src. }
  rewrite Hitems in Hrun. rewrite Hrun.
  split; [by eexists |]. split; [discriminate |]. split; reflexivity.
Qed.

Lemma member_a_gets_double_slash_witness :
  (exists t,
      @get_all_items Demo.one_entry URL 1 0%nat
      = (1%nat, t, Returned [("https://thetv.jp//i/nw/1310405/1.jpg", "Member A")]))
  /\ (@get_all_items Demo.one_entry URL 1 0%nat).2
     <> Returned [("https://thetv.jp/i/nw/1310405/1.jpg", "Member A")]
  /\ normalize_branch
       (Str.replace (Str.drop_last (Str.strip "/news/detail/1310405/1/"))
          "/news/detail/" "/i/nw/" +:+ ".jpg")
     = RootRelative
  /\ normalize_branch (item_src "/news/detail/1310405/1/") = Unchanged.
Proof.
  apply (@member_a_gets_double_slash Demo.one_entry 1 0%nat 1%nat
           (Demo.ok_reply "payload")
           (Tag "div" ∅ ["newsimage"; "clearfix"] [Tag "ul" ∅ [] [Demo.member_a]])
           [] Demo.member_a
           (Demo.a_tag "/news/detail/1310405/1/" [Demo.img_tag "Member A"])
           (Demo.img_tag "Member A")); vm_compute; reflexivity.
Defined.

(** C4 fails on an entry whose image has no [alt]: line 54 indexes the
    attribute, so the extractor raises [KeyError] instead of giving the
    empty caption, and the run ends with exit code 1. *)
Theorem missing_alt_raises `{L : Libs} (env : gmap string string) (w w1 : world)
    (resp : response) (container : node) (rest lis : list node)
    (li img : node) (href : string) :
  http_get page_request w = (w1, inr resp) ->
  http_error resp = None ->
  Soup.find_all_class (html_parser (resp_text resp)) "div" "newsimage"
    = container :: rest ->
  Soup.find_all container "li" = li :: lis ->
  usable_href li = Some href ->
  Soup.find li "img" = Some img ->
  Soup.get img "alt" = None ->
  exists t,
    get_all_items URL 1 w = (w1, t, Raised (KeyError "alt"))
    /\ main env w
       = (w1, t ++ [Print "Error fetching/parsing page: 'alt'"], Exited 1).
Proof.
  intros Hget Herr Hfind Hli Hhref Himg Halt.
  destruct (get_all_items_page 1 w w1 resp container rest Hget Herr Hfind)
    as (t & Hrun & _).
  rewrite Hli in Hrun. simpl in Hrun.
  unfold caption_of in Hrun. rewrite Hhref, Himg, Halt in Hrun.
  eexists. split; [exact Hrun |].
  by rewrite (main_fetch_failed env _ _ _ _ Hrun).
Qed.

Lemma missing_alt_raises_witness :
  exists t,
    @get_all_items Demo.missing_alt URL 1 0%nat = (1%nat, t, Raised (KeyError "alt"))
    /\ @main Demo.missing_alt Demo.credentials 0%nat
       = (1%nat, t ++ [Print "Error fetching/parsing page: 'alt'"], Exited 1).
Proof.
  apply (@missing_alt_raises Demo.missing_alt Demo.credentials 0%nat 1%nat
           (Demo.ok_reply "payload")
           (Tag "div" ∅ ["newsimage"; "clearfix"]
              [Tag "ul" ∅ [] [Demo.uncaptioned; Demo.member_a]])
           [] [Demo.member_a] Demo.uncaptioned Demo.img_no_alt
           "/news/detail/1310405/4/"); vm_compute; reflexivity.
Defined.

(** C2 fails when the container is absent: line 36 takes element 0 of an
    empty list, so the extractor raises [IndexError] instead of returning an
    empty sequence, and the run prints the fetch/parse error and ends with
    exit code 1, not 0. *)
Theorem missing_container_raises `{L : Libs} (env : gmap string string)
    (w w1 : world) (resp : response) :
  http_get page_request w = (w1, inr resp) ->
  http_error resp = None ->
  Soup.find_all_class (html_parser (resp_text resp)) "div" "newsimage" = [] ->
  get_all_items URL 1 w
  = (w1, [HttpGet page_request (inr resp)], Raised IndexError)
  /\ main env w
     = (w1,
        [HttpGet page_request (inr resp);
         Print "Error fetching/parsing page: list index out of range"],
        Exited 1)
  /\ exit_status (main env w).2 = 1.
Proof.
  intros Hget Herr Hfind.
  assert (Hrun : get_all_items URL 1 w
                 = (w1, [HttpGet page_request (inr resp)], Raised IndexError)).
  { unfold get_all_items, bind, requests_get, raise_for_status, index0, ret, raise.
    change (GetRequest URL 15 user_agent) with page_request.
    by rewrite Hget, Herr, Hfind. }
  split; [exact Hrun |].
  rewrite (main_fetch_failed env _ _ _ _ Hrun). by split.
Qed.

Lemma missing_container_raises_witness :
  (@main Demo.no_container Demo.credentials 0%nat).2 = Exited 1
  /\ printed (@main Demo.no_container Demo.credentials 0%nat).1.2
     = ["Error fetching/parsing page: list index out of range"].
Proof.
  destruct (@missing_container_raises Demo.no_container Demo.credentials
              0%nat 1%nat (Demo.ok_reply "payload"))
    as (_ & Hmain & _); [vm_compute; reflexivity .. |].
  rewrite Hmain. split; reflexivity.
Defined.

(** The part of C2 that holds: when the container is there and no entry has
    a usable link, the extractor returns the empty list, and the run prints
    the notice and ends with exit code 0. *)
Lemma no_usable_entries `{L : Libs} (env : gmap string string) (w w1 : world)
    (resp : response) (container : node) (rest : list node) :
  http_get page_request w = (w1, inr resp) ->
  http_error resp = None ->
  Soup.find_all_class (html_parser (resp_text resp)) "div" "newsimage"
    = container :: rest ->
  (forall li, li ∈ Soup.find_all container "li" -> has_usable_link li = false) ->
  exists t,
    get_all_items URL 1 w = (w1, t, Returned [])
    /\ main env w = (w1, t ++ [Print "No items found on the page."], Returned tt)
    /\ exit_status (main env w).2 = 0.
Proof.
  intros Hget Herr Hfind Hnone.
  destruct (captioned_entries_run 1 w w1 resp container rest Hget Herr Hfind)
    as (t & Hrun).
  { intros li Hin Hlink. by rewrite (Hnone li Hin) in Hlink. }
  assert (Hnil : omap entry_item (Soup.find_all container "li") = []).
  { apply length_zero_iff_nil. rewrite length_omap_entry_item.
    clear -Hnone. induction (Soup.find_all container "li") as [|li lis IH]; [done |].
    simpl. rewrite (Hnone li) by left. apply IH. intros li' Hin. apply Hnone. by right. }
  rewrite Hnil in Hrun.
  exists t. split; [exact Hrun |].
  rewrite (main_no_items env _ _ _ Hrun). by split.
Qed.

(** ** The file name of a downloaded image *)

Section Downloader.
Context `{L : Libs}.

Lemma download_filename (image_url : string) (w w' : world) (t : list event)
    (content filename : string) :
  download_image_bytes image_url w = (w', t, Returned (content, filename)) ->
  filename = filename_of image_url.
Proof.
  unfold download_image_bytes, bind, requests_get, raise_for_status, ret, raise.
  destruct (http_get _ w) as [w1 [e|resp]]; [done |].
  destruct (http_error resp); [done |].
  by intros [= _ _ _ <-].
Qed.

Lemma name_from_path (image_url path : string) :
  urlparse_path image_url = inr path ->
  name_from_url image_url
  = inr (str_or (unquote (FileName.last_segment path)) "file").
Proof.
  intros Hpath. unfold name_from_url, index_last.
  by rewrite Hpath, split_last.
Qed.

Lemma recognized_endswith (name : string) :
  FileName.recognized name
  <-> Str.endswith_any (Str.lower name) image_extensions = true.
Proof.
  unfold FileName.recognized, image_extensions.
  rewrite endswith_any_spec. naive_solver.
Qed.

End Downloader.

(** C6.  The file name returned with a downloaded image is the last segment
    of the URL's path, URL-decoded, or the default name [file] when that is
    empty; it is returned unchanged when its lower-case form ends in one of
    [.jpg], [.jpeg], [.png], [.gif], [.webp], and gets [.jpg] appended
    otherwise. *)
Theorem filename_of_download `{L : Libs} (image_url path : string) (w w' : world)
    (t : list event) (content filename : string) :
  download_image_bytes image_url w = (w', t, Returned (content, filename)) ->
  urlparse_path image_url = inr path ->
  exists name,
    name = match unquote (FileName.last_segment path) with
           | EmptyString => FileName.default_name
           | decoded => decoded
           end
    /\ (FileName.recognized name -> filename = name)
    /\ (~ FileName.recognized name -> filename = name +:+ ".jpg").
Proof.
  intros Hrun Hpath. apply download_filename in Hrun as ->.
  unfold filename_of. rewrite (name_from_path _ _ Hpath).
  exists (str_or (unquote (FileName.last_segment path)) "file").
  split; [by destruct (unquote _) |].
  unfold ensure_extension.
  destruct (Str.endswith_any _ _) eqn:Hext; simpl.
  - split; [done |]. intros Hno. by apply recognized_endswith in Hext.
  - split; [|done]. intros Hrec%recognized_endswith. congruence.
Qed.

Lemma filename_of_download_witness :
  (exists name,
      name = "2.PNG"
      /\ (FileName.recognized name -> "2.PNG" = name)
      /\ (~ FileName.recognized name -> "2.PNG" = name +:+ ".jpg"))
  /\ @filename_of Demo.all_up "https://thetv.jp/i/nw/1310405/" = "file.jpg"
  /\ @filename_of Demo.all_up "https://thetv.jp/i/nw/1310405/a.tiff" = "a.tiff.jpg".
Proof.
  split; [|split; vm_compute; reflexivity].
  apply (@filename_of_download Demo.all_up "https://thetv.jp/i/nw/1310405/2.PNG?v=3"
           "/i/nw/1310405/2.PNG" 0%nat 1%nat
           (@download_image_bytes Demo.all_up
              "https://thetv.jp/i/nw/1310405/2.PNG?v=3" 0%nat).1.2
           "payload" "2.PNG").
  - apply run_eta; vm_compute; reflexivity.
  - vm_compute; reflexivity.
Defined.

(** ** Properties of a run *)

(** C7.  When the page gave items and the delay parses, the run returns
    whatever happens to each item: every item's image is requested, in the
    order of the items; a send is attempted for each image that came; each
    item is either delivered or leaves one error line; and the last line is
    the summary with the number of delivered items out of the number of
    items. *)
Theorem failures_do_not_stop_the_run `{L : Libs} (env : gmap string string)
    (w w1 : world) (t1 : list event) (items : list item) (delay : pyfloat) :
  get_all_items URL 1 w = (w1, t1, Returned items) ->
  items <> [] ->
  float_of_str (getenv_default env "TELEGRAM_DELAY_SECONDS" "1") = inr delay ->
  exists w2 t2,
    main env w =
      (w2,
       t1 ++ t2 ++ [Print (summary (Z.of_nat (length (delivered t2))) (len items))],
       Returned tt)
    /\ requested t2 = items.*1
    /\ length (posted t2) = length (fetched t2)
    /\ (length (error_lines t2) + length (delivered t2) = length items)%nat.
Proof.
  intros Hget Hne Hfloat.
  destruct (items_loop_run (bot_token env) (chat_id env) delay (len items) items 1 0 w1)
    as (w2 & t2 & sent & Hloop & -> & Hreq & Hpost & Hlog).
  exists w2, t2. split; [|done].
  by apply (main_items_loop env w w1 w2 t1 t2 items delay _ Hget Hne Hfloat).
Qed.

Lemma failures_do_not_stop_the_run_witness :
  (exists w2 t2,
      @main Demo.second_down Demo.credentials 0%nat =
        (w2,
         (@get_all_items Demo.second_down URL 1 0%nat).1.2 ++ t2 ++
           [Print (summary (Z.of_nat (length (delivered t2))) 3)],
         Returned tt)
      /\ requested t2 = ["https://thetv.jp//i/nw/1310405/1.jpg";
                         "https://thetv.jp//i/nw/1310405/2.jpg";
                         "https://thetv.jp//i/nw/1310405/3.jpg"]
      /\ length (posted t2) = length (fetched t2)
      /\ (length (error_lines t2) + length (delivered t2) = 3)%nat)
  /\ last (printed (@main Demo.second_down Demo.credentials 0%nat).1.2)
     = Some "Done. Sent 2/3 images."
  /\ error_lines (@main Demo.second_down Demo.credentials 0%nat).1.2
     = ["  Error downloading image: connection refused"].
Proof.
  split; [|split; vm_compute; reflexivity].
  apply (@failures_do_not_stop_the_run Demo.second_down Demo.credentials
           0%nat 1%nat (@get_all_items Demo.second_down URL 1 0%nat).1.2
           [("https://thetv.jp//i/nw/1310405/1.jpg", "Member A");
            ("https://thetv.jp//i/nw/1310405/2.jpg", "Member B");
            ("https://thetv.jp//i/nw/1310405/3.jpg", "Member C")]
           1).
  - apply run_eta; vm_compute; reflexivity.
  - discriminate.
  - vm_compute; reflexivity.
Defined.

(** C10.  When [TELEGRAM_DELAY_SECONDS] is set to a string [float] rejects
    and the page gave items, [main] ends with the exception of [float] in
    flight, nothing having caught it; the only request of the run is the one
    for the page, so no image was downloaded or sent. *)
Theorem bad_delay_is_uncaught `{L : Libs} (env : gmap string string)
    (w w1 : world) (t1 : list event) (items : list item) (s : string) (e : exn) :
  get_all_items URL 1 w = (w1, t1, Returned items) ->
  items <> [] ->
  env !! "TELEGRAM_DELAY_SECONDS" = Some s ->
  float_of_str s = inl e ->
  main env w = (w1, t1, Raised e)
  /\ network_calls t1 = [HttpGet page_request (http_get page_request w).2]
  /\ exit_status (main env w).2 = 1.
Proof.
  intros Hget Hne Henv Hfloat.
  assert (Hmain : main env w = (w1, t1, Raised e)).
  { apply (main_bad_delay env w w1 t1 items e Hget Hne).
    unfold getenv_default. by rewrite Henv. }
  split; [exact Hmain |]. split; [|by rewrite Hmain].
  destruct (get_all_items_run URL 1 w) as (t & Hrun & Hnet).
  rewrite Hrun in Hget. injection Hget as _ <- _.
  change (network_calls (?e0 :: t)) with (e0 :: network_calls t).
  by rewrite Hnet.
Qed.

Lemma bad_delay_is_uncaught_witness :
  @main Demo.all_up (<["TELEGRAM_DELAY_SECONDS" := "soon"]> Demo.credentials) 0%nat
  = (1%nat, (@get_all_items Demo.all_up URL 1 0%nat).1.2,
     Raised (Exn "ValueError" "could not convert string to float: 'soon'")).
Proof.
  apply (@bad_delay_is_uncaught Demo.all_up
           (<["TELEGRAM_DELAY_SECONDS" := "soon"]> Demo.credentials)
           0%nat 1%nat (@get_all_items Demo.all_up URL 1 0%nat).1.2
           [("https://thetv.jp//i/nw/1310405/1.jpg", "Member A");
            ("https://thetv.jp//i/nw/1310405/2.jpg", "Member B");
            ("https://thetv.jp//i/nw/1310405/3.jpg", "Member C")]
           "soon" (Exn "ValueError" "could not convert string to float: 'soon'")).
  - apply run_eta; vm_compute; reflexivity.
  - discriminate.
  - vm_compute; reflexivity.
  - vm_compute; reflexivity.
Defined.

(** What lines 106-107 leave in [token] and [chat_id] when the variables
    are unset: the integers 1 and 2, both truthy. *)
Lemma missing_credentials_sentinels `{L : Libs} (env : gmap string string) :
  (env !! "TELEGRAM_BOT_TOKEN" = None -> bot_token env = PyInt 1)
  /\ (env !! "TELEGRAM_CHAT_ID" = None -> chat_id env = PyInt 2).
Proof. unfold bot_token, chat_id, getenv. by split; intros ->. Qed.

(** C1 fails: lines 106-107 replace a missing token by 1 and a missing chat
    id by 2, so the test of line 108 never holds.  Whatever the environment,
    also with [TELEGRAM_BOT_TOKEN] or [TELEGRAM_CHAT_ID] unset, the first
    thing [main] does is request the page, and it never ends with exit
    code 2. *)
Theorem missing_credentials_still_fetch `{L : Libs} (env : gmap string string)
    (w : world) :
  exists w' t r,
    main env w = (w', HttpGet page_request (http_get page_request w).2 :: t, r)
    /\ r <> Exited 2.
Proof.
  destruct (get_all_items_run URL 1 w) as (t & Hrun & _).
  change (GetRequest URL 15 user_agent) with page_request in Hrun.
  destruct (page_outcome URL (http_get page_request w).2) as [items|e|c] eqn:Hout.
  - destruct items as [|it items].
    + rewrite (main_no_items env _ _ _ Hrun). by eexists _, _, _.
    + destruct (float_of_str (getenv_default env "TELEGRAM_DELAY_SECONDS" "1"))
        as [e|delay] eqn:Hfloat.
      * rewrite (main_bad_delay env _ _ _ _ e Hrun) by done. by eexists _, _, _.
      * destruct (items_loop_run (bot_token env) (chat_id env) delay
                    (len (it :: items)) (it :: items) 1 0 (http_get page_request w).1)
          as (w2 & t2 & sent & Hloop & _).
        rewrite (main_items_loop env _ _ _ _ _ _ delay _ Hrun) by done.
        by eexists _, _, _.
  - rewrite (main_fetch_failed env _ _ _ _ Hrun). by eexists _, _, _.
  - by apply page_outcome_not_exited in Hout.
Qed.

(** The run with no variable set at all: the page is requested, the three
    images are posted to [.../bot1/sendPhoto] for the chat 2, and the run
    returns. *)
Lemma missing_credentials_still_fetch_witness :
  (exists w' t r,
      @main Demo.all_up ∅ 0%nat
      = (w', HttpGet page_request (inr (Demo.ok_reply "payload")) :: t, r)
      /\ r <> Exited 2)
  /\ (@main Demo.all_up ∅ 0%nat).2 = Returned tt
  /\ (post_url <$> posted (@main Demo.all_up ∅ 0%nat).1.2)
     = ["https://api.telegram.org/bot1/sendPhoto";
        "https://api.telegram.org/bot1/sendPhoto";
        "https://api.telegram.org/bot1/sendPhoto"]
  /\ (post_chat_id <$> posted (@main Demo.all_up ∅ 0%nat).1.2)
     = [PyInt 2; PyInt 2; PyInt 2].
Proof.
  split; [exact (@missing_credentials_still_fetch Demo.all_up ∅ 0%nat) |].
  repeat split; vm_compute; reflexivity.
Defined.

(** * Further properties of the code *)

(** ** File names *)

Lemma lower_app (a b : string) : Str.lower (a +:+ b) = Str.lower a +:+ Str.lower b.
Proof.
  induction a as [|c a IH]; [done |].
  rewrite append_cons. simpl. by rewrite IH.
Qed.

Lemma append_nonempty_r (a b : string) : b <> "" -> a +:+ b <> "".
Proof. destruct a; [done |]. by rewrite append_cons. Qed.

Lemma ensure_extension_recognized (name : string) :
  FileName.recognized (ensure_extension name).
Proof.
  unfold ensure_extension.
  destruct (Str.endswith_any _ _) eqn:Hext; simpl.
  - by apply recognized_endswith.
  - exists (Str.lower name), ".jpg". split; [set_solver |]. apply lower_app.
Qed.

Lemma recognized_nonempty (name : string) : FileName.recognized name -> name <> "".
Proof.
  intros (stem & ext & Hin & Hlow) ->. simpl in Hlow.
  symmetry in Hlow. revert Hlow. apply append_nonempty_r.
  repeat (apply elem_of_cons in Hin as [-> | Hin]; [done |]).
  by apply elem_of_nil in Hin.
Qed.

(** X1.  Whatever the address, and whatever [urlparse] and [unquote] make
    of it, the file name of a download is not empty and its lower-case form
    ends in one of the listed image extensions. *)
Theorem filename_is_an_image_name `{L : Libs} (image_url : string) :
  FileName.recognized (filename_of image_url) /\ filename_of image_url <> "".
Proof.
  assert (Hrec : FileName.recognized (filename_of image_url))
    by apply ensure_extension_recognized.
  split; [done | by apply recognized_nonempty].
Qed.

(** X2.  Ensuring the extension twice is ensuring it once: a name that went
    through lines 81-83 is left alone by them. *)
Theorem ensure_extension_idempotent (name : string) :
  ensure_extension (ensure_extension name) = ensure_extension name.
Proof.
  pose proof (ensure_extension_recognized name) as Hrec.
  apply recognized_endswith in Hrec.
  unfold ensure_extension at 1. by rewrite Hrec.
Qed.

(** X3.  Deriving the name never fails a download.  Whatever [urlparse]
    and [unquote] do with the address, [download_image_bytes] makes the one
    request for it and ends as that request decides: with the exception of
    the request, with the error of the status, or with the content received
    and a file name.  And when [urlparse] raises on the address, or the
    decoded last segment of its path is empty, that name is [file.jpg]. *)
Theorem name_never_fails_download `{L : Libs} (image_url : string) (w : world) :
  download_image_bytes image_url w
  = ((http_get (image_request image_url) w).1,
     [HttpGet (image_request image_url) (http_get (image_request image_url) w).2],
     match (http_get (image_request image_url) w).2 with
     | inl e => Raised e
     | inr resp =>
         match http_error resp with
         | Some e => Raised e
         | None => Returned (resp_content resp, filename_of image_url)
         end
     end)
  /\ ((exists e, urlparse_path image_url = inl e)
      \/ (exists path, urlparse_path image_url = inr path
                       /\ unquote (FileName.last_segment path) = "") ->
      filename_of image_url = "file.jpg").
Proof.
  split.
  - unfold download_image_bytes, bind, requests_get, raise_for_status, ret, raise.
    change (GetRequest image_url 20 ∅) with (image_request image_url).
    destruct (http_get (image_request image_url) w) as [w1 [e|resp]]; [done |].
    simpl. by destruct (http_error resp).
  - unfold filename_of. intros [[e He] | (path & Hpath & Hseg)].
    + unfold name_from_url. by rewrite He.
    + by rewrite (name_from_path _ _ Hpath), Hseg.
Qed.

Lemma name_never_fails_download_witness :
  @filename_of Probe.picky "https://thetv.jp/i/nw/" = "file.jpg"
  /\ (@download_image_bytes Probe.picky "https://thetv.jp/i/nw/" 0%nat).2
     = Returned ("payload", "file.jpg").
Proof.
  assert (Hname : @filename_of Probe.picky "https://thetv.jp/i/nw/" = "file.jpg").
  { apply (proj2 (@name_never_fails_download Probe.picky "https://thetv.jp/i/nw/" 0%nat)).
    right. exists "/i/nw/". split; vm_compute; reflexivity. }
  split; [exact Hname |].
  rewrite (proj1 (@name_never_fails_download Probe.picky "https://thetv.jp/i/nw/" 0%nat)).
  vm_compute; reflexivity.
Defined.

(** ** The address of a detail link *)

Lemma rstrip_keep (s : string) (c : ascii) :
  Str.isspace c = false -> Str.rstrip (s +:+ String c "") = s +:+ String c "".
Proof.
  intros Hc. induction s as [|a s IH].
  - simpl. by rewrite Hc.
  - rewrite append_cons. simpl. rewrite IH.
    destruct s; by rewrite ?append_cons.
Qed.

Lemma drop_last_snoc (s : string) (c : ascii) :
  Str.drop_last (s +:+ String c "") = s.
Proof.
  induction s as [|a s IH]; [done |].
  rewrite append_cons. simpl. rewrite IH.
  destruct s; by rewrite ?append_cons.
Qed.

Lemma replace_go_skip (old new x s : string) :
  Str.replace_go old new (String.length x) (x +:+ s) = Str.replace_go old new 0 s.
Proof.
  induction x as [|a x IH]; [done |]. by rewrite append_cons.
Qed.

Lemma replace_go_match (old new s : string) :
  old <> "" ->
  Str.replace_go old new 0 (old +:+ s) = new +:+ Str.replace_go old new 0 s.
Proof.
  destruct old as [|a old]; [done |]. intros _.
  rewrite append_cons. simpl.
  pose proof (startswith_app (String a old) s) as Hpre.
  unfold Str.startswith in Hpre. rewrite append_cons in Hpre. simpl in Hpre.
  rewrite Hpre, Nat.sub_0_r. by rewrite replace_go_skip.
Qed.

Lemma replace_go_absent (old new s : string) :
  occurs old s = false -> Str.replace_go old new 0 s = s.
Proof.
  induction s as [|c s IH]; [done |]. simpl.
  intros [Hpre Hocc]%orb_false_iff. rewrite Hpre. by rewrite (IH Hocc).
Qed.

(** X4.  For a link to a detail page, [/news/detail/<id>] followed by one
    more character that is no space (the closing slash), where [<id>] does
    not contain [/news/detail/] again, the image address is
    [https://thetv.jp//i/nw/<id>.jpg]: the detail segment is rewritten, the
    last character dropped, and the two slashes after the host stay. *)
Theorem detail_link_address (id : string) (c : ascii) :
  Str.isspace c = false ->
  occurs "/news/detail/" id = false ->
  item_src ("/news/detail/" +:+ id +:+ String c "")
  = "https://thetv.jp//i/nw/" +:+ id +:+ ".jpg".
Proof.
  intros Hc Hid. unfold item_src, Str.strip.
  change (Str.lstrip ("/news/detail/" +:+ id +:+ String c ""))
    with ("/news/detail/" +:+ id +:+ String c "").
  rewrite <- (append_assoc "/news/detail/" id (String c "")).
  rewrite (rstrip_keep _ c Hc), drop_last_snoc.
  unfold Str.replace.
  rewrite (replace_go_match "/news/detail/" "/i/nw/" id) by done.
  by rewrite (replace_go_absent _ _ _ Hid).
Qed.

Lemma detail_link_address_witness :
  item_src ("/news/detail/" +:+ "1310405/14" +:+ "/")
  = "https://thetv.jp//i/nw/" +:+ "1310405/14" +:+ ".jpg".
Proof.
  apply (detail_link_address "1310405/14" "/"); vm_compute; reflexivity.
Defined.

(** ** The extractor, entry by entry *)

Section ExtractorMore.
Context `{L : Libs}.

Lemma caption_of_alt_text (li : node) (caption : string) :
  caption_of li = inr caption -> alt_text li = caption.
Proof.
  unfold caption_of, alt_text.
  destruct (Soup.find li "img") as [img|]; [|by intros [= <-]].
  destruct (Soup.get img "alt"); [by intros [= <-] | done].
Qed.

Lemma caption_of_error (li : node) (e : exn) :
  caption_of li = inl e -> e = KeyError "alt".
Proof.
  unfold caption_of.
  destruct (Soup.find li "img") as [img|]; [|done].
  destruct (Soup.get img "alt"); [done | by intros [= <-]].
Qed.

(** The loop over the entries either gets past every entry and returns
    their items, or stops at the first entry whose caption it cannot read. *)
Lemma extract_decided (url : string) (lis : list node) :
  forall items,
    extract url lis items
    = if forallb entry_ok lis
      then Returned (items ++ omap entry_item lis)
      else Raised (KeyError "alt").
Proof.
  induction lis as [|li lis IH]; intros items.
  - simpl. by rewrite app_nil_r.
  - change (forallb entry_ok (li :: lis))
      with (entry_ok li && forallb entry_ok lis).
    change (omap entry_item (li :: lis))
      with (match entry_item li with
            | Some it => it :: omap entry_item lis
            | None => omap entry_item lis
            end).
    simpl. unfold entry_ok at 1, entry_item at 1.
    destruct (usable_href li) as [href|]; simpl; [|apply IH].
    destruct (caption_of li) as [e|caption] eqn:Hcap.
    + by rewrite (caption_of_error li e Hcap).
    + rewrite IH, normalize_item_src, (caption_of_alt_text li caption Hcap).
      simpl. destruct (forallb entry_ok lis); [|done].
      by rewrite <- app_assoc.
Qed.

End ExtractorMore.

(** C5 (code defect, the one of C4).  A page with its container may have
    entries with a usable link and still give no item: as soon as one such
    entry has an image without [alt], wherever it stands among the entries,
    the extractor raises [KeyError('alt')] instead of returning one item per
    linked entry, and the run ends with exit code 1. *)
Theorem linked_entries_lost_to_missing_alt `{L : Libs} (env : gmap string string)
    (w w1 : world) (resp : response) (container : node) (rest : list node)
    (li img : node) (href : string) :
  http_get page_request w = (w1, inr resp) ->
  http_error resp = None ->
  Soup.find_all_class (html_parser (resp_text resp)) "div" "newsimage"
    = container :: rest ->
  li ∈ Soup.find_all container "li" ->
  usable_href li = Some href ->
  Soup.find li "img" = Some img ->
  Soup.get img "alt" = None ->
  (get_all_items URL 1 w).2 = Raised (KeyError "alt")
  /\ (0 < length (List.filter has_usable_link (Soup.find_all container "li")))%nat
  /\ exit_status (main env w).2 = 1.
Proof.
  intros Hget Herr Hfind Hin Hhref Himg Halt.
  destruct (get_all_items_page 1 w w1 resp container rest Hget Herr Hfind)
    as (t & Hrun & _).
  assert (Hbad : entry_ok li = false).
  { unfold entry_ok, caption_of. by rewrite Hhref, Himg, Halt. }
  assert (Hall : forallb entry_ok (Soup.find_all container "li") = false).
  { apply not_true_iff_false. intros Hall.
    rewrite forallb_forall in Hall.
    specialize (Hall li (proj1 (list_elem_of_In _ _) Hin)). congruence. }
  rewrite extract_decided, Hall in Hrun.
  split; [by rewrite Hrun |]. split.
  - assert (Hfil : In li (List.filter has_usable_link (Soup.find_all container "li"))).
    { apply filter_In. split; [by apply list_elem_of_In |].
      unfold has_usable_link. by rewrite Hhref. }
    destruct (List.filter _ _); [done | simpl; lia].
  - by rewrite (main_fetch_failed env _ _ _ _ Hrun).
Qed.

Lemma linked_entries_lost_to_missing_alt_witness :
  (@get_all_items (Demo.libs (Demo.page_of [Demo.member_a; Demo.uncaptioned]) [] [])
     URL 1 0%nat).2
  = Raised (KeyError "alt")
  /\ (0 < length (List.filter has_usable_link
                    (Soup.find_all
                       (Tag "div" ∅ ["newsimage"; "clearfix"]
                          [Tag "ul" ∅ [] [Demo.member_a; Demo.uncaptioned]]) "li")))%nat
  /\ exit_status
       (@main (Demo.libs (Demo.page_of [Demo.member_a; Demo.uncaptioned]) [] [])
          Demo.credentials 0%nat).2
     = 1.
Proof.
  apply (@linked_entries_lost_to_missing_alt
           (Demo.libs (Demo.page_of [Demo.member_a; Demo.uncaptioned]) [] [])
           Demo.credentials 0%nat 1%nat (Demo.ok_reply "payload")
           (Tag "div" ∅ ["newsimage"; "clearfix"]
              [Tag "ul" ∅ [] [Demo.member_a; Demo.uncaptioned]])
           [] Demo.uncaptioned Demo.img_no_alt "/news/detail/1310405/4/");
    try (vm_compute; reflexivity).
  vm_compute. apply list_elem_of_In. right. by left.
Defined.

(** X5.  On a page that came with its container, the extractor is all or
    nothing.  If every entry is skipped or has a readable caption, it
    returns the items of the entries with a usable link, in their order; if
    one entry with a usable link has an image without [alt], wherever it
    stands, the extractor raises [KeyError('alt')] and returns no item at
    all. *)
Theorem extractor_all_or_nothing `{L : Libs} (i : Z) (w w1 : world)
    (resp : response) (container : node) (rest : list node) :
  http_get page_request w = (w1, inr resp) ->
  http_error resp = None ->
  Soup.find_all_class (html_parser (resp_text resp)) "div" "newsimage"
    = container :: rest ->
  (get_all_items URL i w).2
  = if forallb entry_ok (Soup.find_all container "li")
    then Returned (omap entry_item (Soup.find_all container "li"))
    else Raised (KeyError "alt").
Proof.
  intros Hget Herr Hfind.
  destruct (get_all_items_page i w w1 resp container rest Hget Herr Hfind)
    as (t & -> & _).
  simpl. by rewrite extract_decided.
Qed.

Lemma extractor_all_or_nothing_witness :
  (@get_all_items (Demo.libs (Demo.page_of [Demo.member_a; Demo.uncaptioned]) [] [])
     URL 1 0%nat).2
  = Raised (KeyError "alt").
Proof.
  apply (@extractor_all_or_nothing
           (Demo.libs (Demo.page_of [Demo.member_a; Demo.uncaptioned]) [] [])
           1 0%nat 1%nat (Demo.ok_reply "payload")
           (Tag "div" ∅ ["newsimage"; "clearfix"]
              [Tag "ul" ∅ [] [Demo.member_a; Demo.uncaptioned]])
           []); vm_compute; reflexivity.
Defined.

(** X6.  Whatever the page holds, [get_all_items] makes exactly one network
    call, the GET for the address it was given, with a timeout of 15 and the
    script's own [User-Agent]; it posts nothing, and it leaves the world as
    that one request left it. *)
Theorem extractor_makes_one_request `{L : Libs} (url : string) (i : Z) (w : world) :
  network_calls (get_all_items url i w).1.2
  = [HttpGet (GetRequest url 15 user_agent)
       (http_get (GetRequest url 15 user_agent) w).2]
  /\ (get_all_items url i w).1.1 = (http_get (GetRequest url 15 user_agent) w).1
  /\ get_headers (GetRequest url 15 user_agent) !! "User-Agent"
     = Some "Mozilla/5.0 (compatible; send_first_img/1.0)".
Proof.
  destruct (get_all_items_run url i w) as (t & -> & Hnet).
  split; [|done]. cbn [fst snd].
  change (network_calls (?e :: t)) with (e :: network_calls t).
  by rewrite Hnet.
Qed.

(** ** How a run ends *)

(** X7.  How [main] ends is decided by the page and the delay alone, never
    by the credentials or by what happens to the items: exit code 1 when
    fetching or parsing the page raised; a normal return when the page gave
    no item, whatever [TELEGRAM_DELAY_SECONDS] holds; the exception of
    [float] when the page gave items and the delay does not parse; a normal
    return otherwise.  So the exit status is 0 or 1. *)
Theorem main_outcome `{L : Libs} (env : gmap string string) (w : world) :
  (main env w).2
  = match page_outcome URL (http_get page_request w).2 with
    | Raised _ => Exited 1
    | Returned [] => Returned tt
    | Returned (_ :: _) =>
        match float_of_str (getenv_default env "TELEGRAM_DELAY_SECONDS" "1") with
        | inl e => Raised e
        | inr _ => Returned tt
        end
    | Exited c => Exited c
    end
  /\ (exit_status (main env w).2 = 0 \/ exit_status (main env w).2 = 1).
Proof.
  destruct (get_all_items_run URL 1 w) as (t & Hrun & _).
  change (GetRequest URL 15 user_agent) with page_request in Hrun.
  destruct (page_outcome URL (http_get page_request w).2) as [items|e|c] eqn:Hout.
  - destruct items as [|it items].
    + rewrite (main_no_items env _ _ _ Hrun). split; [done | by left].
    + destruct (float_of_str (getenv_default env "TELEGRAM_DELAY_SECONDS" "1"))
        as [e|delay] eqn:Hfloat.
      * rewrite (main_bad_delay env _ _ _ _ e Hrun) by done. split; [done | by right].
      * destruct (items_loop_run (bot_token env) (chat_id env) delay
                    (len (it :: items)) (it :: items) 1 0 (http_get page_request w).1)
          as (w2 & t2 & sent & Hloop & _).
        rewrite (main_items_loop env _ _ _ _ _ _ delay _ Hrun) by done.
        split; [done | by left].
  - rewrite (main_fetch_failed env _ _ _ _ Hrun). split; [done | by right].
  - by apply page_outcome_not_exited in Hout.
Qed.

(** X8.  Unless the page gave at least one item, the request for the page
    is the only network call of the whole run: nothing is downloaded and
    nothing is posted. *)
Theorem no_items_no_traffic `{L : Libs} (env : gmap string string) (w : world) :
  (forall it items,
      page_outcome URL (http_get page_request w).2 <> Returned (it :: items)) ->
  network_calls (main env w).1.2
  = [HttpGet page_request (http_get page_request w).2].
Proof.
  intros Hnone.
  destruct (get_all_items_run URL 1 w) as (t & Hrun & Hnet).
  change (GetRequest URL 15 user_agent) with page_request in Hrun.
  destruct (page_outcome URL (http_get page_request w).2) as [items|e|c] eqn:Hout.
  - destruct items as [|it items]; [|by destruct (Hnone it items)].
    rewrite (main_no_items env _ _ _ Hrun). cbn [fst snd].
    rewrite network_calls_app.
    change (network_calls (?e :: t)) with (e :: network_calls t).
    by rewrite Hnet.
  - rewrite (main_fetch_failed env _ _ _ _ Hrun). cbn [fst snd].
    rewrite network_calls_app.
    change (network_calls (?e0 :: t)) with (e0 :: network_calls t).
    by rewrite Hnet.
  - by apply page_outcome_not_exited in Hout.
Qed.

Lemma no_items_no_traffic_witness :
  network_calls
    (@main (Demo.libs (Demo.page_of [Demo.unlinked]) [] []) Demo.credentials 0%nat).1.2
  = [HttpGet page_request (inr (Demo.ok_reply "payload"))].
Proof.
  apply (@no_items_no_traffic (Demo.libs (Demo.page_of [Demo.unlinked]) [] [])
           Demo.credentials 0%nat).
  intros it items. vm_compute. discriminate.
Defined.

(** ** The loop over the items, call by call *)

Section LoopShape.
Context `{L : Libs}.

Lemma short_pauses_app (t1 t2 : list event) :
  short_pauses (t1 ++ t2) = short_pauses t1 ++ short_pauses t2.
Proof. apply omap_app. Qed.

Lemma delays_app (t1 t2 : list event) :
  delays (t1 ++ t2) = delays t1 ++ delays t2.
Proof. apply omap_app. Qed.

Lemma progress_lines_app (t1 t2 : list event) :
  progress_lines (t1 ++ t2) = progress_lines t1 ++ progress_lines t2.
Proof.
  unfold progress_lines, printed. by rewrite omap_app, List.filter_app.
Qed.

Lemma exchanges_app (token chat : pyval) (items1 items2 : list item)
    (calls1 calls2 : list event) :
  exchanges token chat items1 calls1 ->
  exchanges token chat items2 calls2 ->
  exchanges token chat (items1 ++ items2) (calls1 ++ calls2).
Proof.
  intros H1 H2. induction H1; simpl; [done | |].
  - by apply exchanges_failed.
  - by apply exchanges_posted.
Qed.

(** One item, call by call. *)
Lemma process_item_shape (token chat : pyval) (delay : pyfloat) (total idx : Z)
    (it : item) (sent : Z) (w : world) :
  exists w' t sent',
    process_item token chat delay total (idx, it) sent w = (w', t, Returned sent')
    /\ exchanges token chat [it] (network_calls t)
    /\ short_pauses t = replicate (length (delivered t)) 3
    /\ delays t = replicate (length (fetched t)) delay
    /\ progress_lines t = [progress_line total (idx, it)].
Proof.
  destruct it as [image_url caption].
  unfold process_item, download_image_bytes, send_photo_telegram,
    json_get_str, requests_get, session_post, raise_for_status, time_sleep,
    lift, bind, try_except, emit, ret, raise.
  repeat (simpl; case_match; simplify_eq).
  all: eexists _, _, _; (split; [reflexivity |]).
  all: unfold short_pauses, delays, progress_lines, progress_line, printed,
         fetched, delivered, reply_ok, send_ok, network_calls; simpl.
  all: repeat match goal with
         | H : http_error _ = _ |- _ => rewrite H
         | H : resp_json _ = _ |- _ => rewrite H; clear H
         end; simpl.
  all: rewrite ?startswith_app.
  all: split; [|done].
  all: first
         [ by eapply (exchanges_posted token chat (image_url, caption) []);
             [| constructor]
         | eapply (exchanges_failed token chat (image_url, caption) []);
             [| constructor]; unfold reply_ok;
             repeat match goal with
               | H : http_error _ = _ |- _ => rewrite H
               end; done ].
Qed.

Lemma items_loop_shape (token chat : pyval) (delay : pyfloat) (total : Z)
    (items : list item) :
  forall (start sent : Z) (w : world),
  exists w' t sent',
    for_each (enumerate items start) (process_item token chat delay total) sent w
    = (w', t, Returned sent')
    /\ exchanges token chat items (network_calls t)
    /\ short_pauses t = replicate (length (delivered t)) 3
    /\ delays t = replicate (length (fetched t)) delay
    /\ progress_lines t = progress_line total <$> enumerate items start.
Proof.
  induction items as [|it items IH]; intros start sent w.
  - exists w, [], sent. repeat split; (done || constructor).
  - destruct (process_item_shape token chat delay total start it sent w)
      as (w1 & t1 & sent1 & Hrun1 & Hex1 & Hshort1 & Hdelay1 & Hprog1).
    destruct (IH (start + 1) sent1 w1)
      as (w2 & t2 & sent2 & Hrun2 & Hex2 & Hshort2 & Hdelay2 & Hprog2).
    exists w2, (t1 ++ t2), sent2. split.
    { change (for_each (enumerate (it :: items) start) ?b sent w)
        with (bind (b (start, it) sent) (for_each (enumerate items (start + 1)) b) w).
      unfold bind at 1. by rewrite Hrun1, Hrun2. }
    rewrite network_calls_app, short_pauses_app, delays_app, progress_lines_app,
      delivered_app, fetched_app, !length_app, !replicate_add.
    rewrite Hshort1, Hshort2, Hdelay1, Hdelay2, Hprog1, Hprog2.
    split; [|done]. by apply (exchanges_app token chat [it] items).
Qed.

End LoopShape.

Lemma fetched_network_calls `{L : Libs} (t : list event) :
  fetched (network_calls t) = fetched t.
Proof.
  induction t as [|e t IH]; [done |].
  change (e :: t) with ([e] ++ t).
  rewrite network_calls_app, !fetched_app, IH. by destruct e.
Qed.

Lemma exchanges_fetched `{L : Libs} (token chat : pyval) (items : list item)
    (calls : list event) :
  exchanges token chat items calls ->
  (length (fetched calls) <= length items)%nat.
Proof.
  induction 1 as [|it items reply calls Hfail _ IH|it items resp reply calls Herr _ IH].
  - done.
  - change (?e :: calls) with ([e] ++ calls).
    rewrite fetched_app. unfold fetched at 1. simpl. rewrite Hfail. simpl. lia.
  - change (?e1 :: ?e2 :: calls) with ([e1; e2] ++ calls).
    rewrite fetched_app. unfold fetched at 1. simpl. rewrite Herr. simpl. lia.
Qed.

(** X9.  In a run that has items, the network calls after the page request
    follow the items in order: for each item one GET of its address with
    timeout 20, and, exactly when that GET got a reply without error status,
    one POST to the [sendPhoto] endpoint of the token, for the chat id, with
    the item's caption, the file name derived from the item's address and
    the very content the GET received, with timeout 60.  Nothing else is
    requested. *)
Theorem photos_are_what_was_downloaded `{L : Libs} (env : gmap string string)
    (w w1 : world) (t1 : list event) (items : list item) (delay : pyfloat) :
  get_all_items URL 1 w = (w1, t1, Returned items) ->
  items <> [] ->
  float_of_str (getenv_default env "TELEGRAM_DELAY_SECONDS" "1") = inr delay ->
  exists calls,
    network_calls (main env w).1.2
    = HttpGet page_request (http_get page_request w).2 :: calls
    /\ exchanges (bot_token env) (chat_id env) items calls.
Proof.
  intros Hget Hne Hfloat.
  destruct (items_loop_shape (bot_token env) (chat_id env) delay (len items) items 1 0 w1)
    as (w2 & t2 & sent & Hloop & Hex & _).
  rewrite (main_items_loop env w w1 w2 t1 t2 items delay sent Hget Hne Hfloat Hloop).
  exists (network_calls t2). split; [|done]. cbn [fst snd].
  destruct (get_all_items_run URL 1 w) as (t & Hrun & Hnet).
  rewrite Hrun in Hget. injection Hget as _ <- _.
  rewrite !network_calls_app.
  change (network_calls (?e :: t)) with (e :: network_calls t).
  rewrite Hnet. simpl. by rewrite app_nil_r.
Qed.

Lemma photos_are_what_was_downloaded_witness :
  exists calls,
    network_calls (@main Demo.second_down Demo.credentials 0%nat).1.2
    = HttpGet page_request (inr (Demo.ok_reply "payload")) :: calls
    /\ @exchanges Demo.second_down (PyStr "123:abc") (PyStr "-1001")
         [("https://thetv.jp//i/nw/1310405/1.jpg", "Member A");
          ("https://thetv.jp//i/nw/1310405/2.jpg", "Member B");
          ("https://thetv.jp//i/nw/1310405/3.jpg", "Member C")] calls.
Proof.
  apply (@photos_are_what_was_downloaded Demo.second_down Demo.credentials
           0%nat 1%nat (@get_all_items Demo.second_down URL 1 0%nat).1.2
           [("https://thetv.jp//i/nw/1310405/1.jpg", "Member A");
            ("https://thetv.jp//i/nw/1310405/2.jpg", "Member B");
            ("https://thetv.jp//i/nw/1310405/3.jpg", "Member C")]
           1).
  - apply run_eta; vm_compute; reflexivity.
  - discriminate.
  - vm_compute; reflexivity.
Defined.

(** X10.  The pauses of a run that has items: one pause of 3 seconds for
    each delivered photo, and one pause of the configured delay for each
    image that was fetched, whether its post then succeeded or not; an item
    whose download failed is followed by no pause at all. *)
Theorem pauses_follow_sends `{L : Libs} (env : gmap string string)
    (w w1 : world) (t1 : list event) (items : list item) (delay : pyfloat) :
  get_all_items URL 1 w = (w1, t1, Returned items) ->
  items <> [] ->
  float_of_str (getenv_default env "TELEGRAM_DELAY_SECONDS" "1") = inr delay ->
  exists w2 t2 sent,
    main env w
    = (w2, t1 ++ t2 ++ [Print (summary sent (len items))], Returned tt)
    /\ short_pauses t2 = replicate (length (delivered t2)) 3
    /\ delays t2 = replicate (length (fetched t2)) delay
    /\ (length (fetched t2) <= length items)%nat.
Proof.
  intros Hget Hne Hfloat.
  destruct (items_loop_shape (bot_token env) (chat_id env) delay (len items) items 1 0 w1)
    as (w2 & t2 & sent & Hloop & Hex & Hshort & Hdelay & _).
  exists w2, t2, sent.
  split; [by apply (main_items_loop env w w1 w2 t1 t2 items delay sent) |].
  split; [done |]. split; [done |].
  rewrite <- fetched_network_calls. by apply (exchanges_fetched _ _ _ _ Hex).
Qed.

Lemma pauses_follow_sends_witness :
  (exists w2 t2 sent,
      @main Demo.second_down Demo.credentials 0%nat
      = (w2, (@get_all_items Demo.second_down URL 1 0%nat).1.2 ++ t2
             ++ [Print (summary sent 3)], Returned tt)
      /\ short_pauses t2 = replicate (length (delivered t2)) 3
      /\ delays t2 = replicate (length (fetched t2)) 1
      /\ (length (fetched t2) <= 3)%nat)
  /\ @short_pauses Demo.second_down (@main Demo.second_down Demo.credentials 0%nat).1.2
     = [3; 3]
  /\ @delays Demo.second_down (@main Demo.second_down Demo.credentials 0%nat).1.2
     = [1; 1].
Proof.
  split; [|split; vm_compute; reflexivity].
  apply (@pauses_follow_sends Demo.second_down Demo.credentials
           0%nat 1%nat (@get_all_items Demo.second_down URL 1 0%nat).1.2
           [("https://thetv.jp//i/nw/1310405/1.jpg", "Member A");
            ("https://thetv.jp//i/nw/1310405/2.jpg", "Member B");
            ("https://thetv.jp//i/nw/1310405/3.jpg", "Member C")]
           1).
  - apply run_eta; vm_compute; reflexivity.
  - discriminate.
  - vm_compute; reflexivity.
Defined.



(** ** What counts as sent *)

(** X12.  A photo counts as sent as soon as the reply to its post has no
    error status and a JSON object for a body: the counter goes up by one
    whatever the object says under ["ok"] (the value is only printed, [None]
    when there is none), and both pauses follow. *)
Theorem ok_flag_is_only_printed `{L : Libs} (token chat : pyval) (delay : pyfloat)
    (total idx sent : Z) (image_url caption : string) (w w1 w2 : world)
    (resp reply : response) (members : gmap string string) :
  http_get (image_request image_url) w = (w1, inr resp) ->
  http_error resp = None ->
  http_post (photo_request token chat (image_url, caption) resp) w1
  = (w2, inr reply) ->
  http_error reply = None ->
  resp_json reply = inr (JObject members) ->
  process_item token chat delay total (idx, (image_url, caption)) sent w
  = (sleep (SecFloat delay) (sleep (SecInt 3) w2),
     [Print (progress_line total (idx, (image_url, caption)));
      HttpGet (image_request image_url) (inr resp);
      HttpPost (photo_request token chat (image_url, caption) resp) (inr reply);
      Print ("  Sent as photo '" +:+ filename_of image_url +:+ "', ok="
             +:+ default "None" (members !! "ok"));
      Sleep (SecInt 3);
      Sleep (SecFloat delay)],
     Returned (sent + 1)).
Proof.
  unfold image_request, photo_request, api_url. simpl.
  intros Hget Herr Hpost Herr2 Hjson.
  unfold process_item, download_image_bytes, send_photo_telegram,
    json_get_str, requests_get, session_post, raise_for_status, time_sleep,
    lift, bind, try_except, emit, ret, raise.
  rewrite Hget. simpl. rewrite Herr. simpl.
  rewrite Hpost. simpl. rewrite Herr2. simpl. rewrite Hjson. simpl.
  done.
Qed.

Lemma ok_flag_is_only_printed_witness :
  @process_item Probe.picky (PyStr "123:abc") (PyStr "-1001") 1 3
    (3, ("https://thetv.jp//i/nw/1310405/3.jpg", "Member C")) 1 4%nat
  = (@sleep Probe.picky (SecFloat (1 : @pyfloat Probe.picky)) (@sleep Probe.picky (SecInt 3) 6%nat),
     [Print (progress_line 3 (3, ("https://thetv.jp//i/nw/1310405/3.jpg", "Member C")));
      HttpGet (image_request "https://thetv.jp//i/nw/1310405/3.jpg")
        (inr (Demo.ok_reply "payload"));
      HttpPost
        (@photo_request Probe.picky (PyStr "123:abc") (PyStr "-1001")
           ("https://thetv.jp//i/nw/1310405/3.jpg", "Member C")
           (Demo.ok_reply "payload"))
        (inr (Response "" "" None (inr (JObject {[ "ok" := "False" ]}))));
      Print ("  Sent as photo '"
             +:+ @filename_of Probe.picky "https://thetv.jp//i/nw/1310405/3.jpg"
             +:+ "', ok="
             +:+ default "None" (({[ "ok" := "False" ]} : gmap string string) !! "ok"));
      Sleep (SecInt 3);
      Sleep (SecFloat (1 : @pyfloat Probe.picky))],
     Returned (1 + 1))
  /\ "  Sent as photo '"
     +:+ @filename_of Probe.picky "https://thetv.jp//i/nw/1310405/3.jpg"
     +:+ "', ok=" +:+ default "None" (({[ "ok" := "False" ]} : gmap string string) !! "ok")
     = "  Sent as photo '3.jpg', ok=False".
Proof.
  split; [|vm_compute; reflexivity].
  apply (@ok_flag_is_only_printed Probe.picky (PyStr "123:abc") (PyStr "-1001")
           1 3 3 1 "https://thetv.jp//i/nw/1310405/3.jpg" "Member C"
           4%nat 5%nat 6%nat (Demo.ok_reply "payload")
           (Response "" "" None (inr (JObject {[ "ok" := "False" ]})))
           {[ "ok" := "False" ]}); vm_compute; reflexivity.
Defined.

(** X13.  When the post went out and came back without error status but
    its body is no JSON, the photo is not counted: the item leaves the error
    line with the decoder's message, the 3 second pause is skipped, and only
    the configured delay follows. *)
Theorem garbled_reply_is_not_counted `{L : Libs} (token chat : pyval)
    (delay : pyfloat) (total idx sent : Z) (image_url caption : string)
    (w w1 w2 : world) (resp reply : response) (e : exn) :
  http_get (image_request image_url) w = (w1, inr resp) ->
  http_error resp = None ->
  http_post (photo_request token chat (image_url, caption) resp) w1
  = (w2, inr reply) ->
  http_error reply = None ->
  resp_json reply = inl e ->
  process_item token chat delay total (idx, (image_url, caption)) sent w
  = (sleep (SecFloat delay) w2,
     [Print (progress_line total (idx, (image_url, caption)));
      HttpGet (image_request image_url) (inr resp);
      HttpPost (photo_request token chat (image_url, caption) resp) (inr reply);
      Print ("  Error sending to Telegram: " +:+ exn_str e);
      Sleep (SecFloat delay)],
     Returned sent).
Proof.
  unfold image_request, photo_request, api_url. simpl.
  intros Hget Herr Hpost Herr2 Hjson.
  unfold process_item, download_image_bytes, send_photo_telegram,
    json_get_str, requests_get, session_post, raise_for_status, time_sleep,
    lift, bind, try_except, emit, ret, raise.
  rewrite Hget. simpl. rewrite Herr. simpl.
  rewrite Hpost. simpl. rewrite Herr2. simpl. rewrite Hjson. simpl.
  done.
Qed.

Lemma garbled_reply_is_not_counted_witness :
  @process_item Probe.picky (PyStr "123:abc") (PyStr "-1001") 1 3
    (2, ("https://thetv.jp//i/nw/1310405/2.jpg", "Member B")) 1 2%nat
  = (@sleep Probe.picky (SecFloat (1 : @pyfloat Probe.picky)) 4%nat,
     [Print (progress_line 3 (2, ("https://thetv.jp//i/nw/1310405/2.jpg", "Member B")));
      HttpGet (image_request "https://thetv.jp//i/nw/1310405/2.jpg")
        (inr (Demo.ok_reply "payload"));
      HttpPost
        (@photo_request Probe.picky (PyStr "123:abc") (PyStr "-1001")
           ("https://thetv.jp//i/nw/1310405/2.jpg", "Member B")
           (Demo.ok_reply "payload"))
        (inr (Response "<html>" "<html>" None
                (inl (Exn "JSONDecodeError"
                        "Expecting value: line 1 column 1 (char 0)"))));
      Print ("  Error sending to Telegram: "
             +:+ exn_str (Exn "JSONDecodeError"
                            "Expecting value: line 1 column 1 (char 0)"));
      Sleep (SecFloat (1 : @pyfloat Probe.picky))],
     Returned 1).
Proof.
  apply (@garbled_reply_is_not_counted Probe.picky (PyStr "123:abc") (PyStr "-1001")
           1 3 2 1 "https://thetv.jp//i/nw/1310405/2.jpg" "Member B"
           2%nat 3%nat 4%nat (Demo.ok_reply "payload")
           (Response "<html>" "<html>" None
              (inl (Exn "JSONDecodeError"
                      "Expecting value: line 1 column 1 (char 0)")))
           (Exn "JSONDecodeError" "Expecting value: line 1 column 1 (char 0)"));
    vm_compute; reflexivity.
Defined.
